(** * LUIS authoring client: paged scans, find-or-create and the training poller

    A shallow embedding of [src/luis.ts] (classes [LuisBaseAPI], [LuisAppsAPI],
    [LuisModelsAPI], [LuisTrainAPI]) and of the find-or-create sequences of the
    sample script's [main].

    The client is sequential: every remote call is awaited before the next one
    is issued.  A run is therefore modelled as a function of the history of
    effects performed so far (requests and timed delays, oldest first); the
    remote service is an arbitrary deterministic function of that history.
    The two [do ... while] loops take a fuel argument that bounds the number
    of iterations; running out of fuel is reported as [None]. *)

From Stdlib Require Import String List ZArith Bool Arith Lia.
Import ListNotations.

Local Open Scope string_scope.
Local Open Scope list_scope.
Local Open Scope nat_scope.

(* ================================================================== *)
(** ** JavaScript values met in the JSON responses *)

Inductive Value : Type :=
| VUndefined
| VNull
| VBool (b : bool)
| VNum (z : Z)
| VStr (s : string).

(** [!!v] *)
Definition truthy (v : Value) : bool :=
  match v with
  | VUndefined | VNull => false
  | VBool b => b
  | VNum z => negb (z =? 0)%Z
  | VStr s => negb (s =? "")%string
  end.

(** [v === s] for a string [s]: no coercion, exact comparison of the characters. *)
Definition strictEqStr (v : Value) (s : string) : bool :=
  match v with
  | VStr s' => (s' =? s)%string
  | _ => false
  end.

(** [v === z] for a number [z]. *)
Definition strictEqNum (v : Value) (z : Z) : bool :=
  match v with
  | VNum z' => (z' =? z)%Z
  | _ => false
  end.

(* ================================================================== *)
(** ** Data model *)

(** [export enum TrainingStatus { Success = 0, Fail = 1, UpToDate = 2,
    InProgress = 3, Queued = 9 }] *)
Module TrainingStatus.

Inductive t : Type := Success | Fail | UpToDate | InProgress | Queued.

Definition code (s : t) : Z :=
  match s with
  | Success => 0
  | Fail => 1
  | UpToDate => 2
  | InProgress => 3
  | Queued => 9
  end%Z.

End TrainingStatus.

(** [v === TrainingStatus.X] on an untyped response field. *)
Definition isStatus (v : Value) (s : TrainingStatus.t) : bool :=
  strictEqNum v (TrainingStatus.code s).

(** An element of a listed collection (application, intent, entity, ...):
    the two fields the client reads.  An absent field reads [VUndefined]. *)
Module Item.
Record t : Type := { name : Value; id : Value }.
End Item.

(** The status object of the train endpoints: [{ statusId, ... }]. *)
Module Details.
Record t : Type := { statusId : Value }.
End Details.

(** One entry of the per-model training status list: [{ modelId, details }]. *)
Record ModelTrainingInfo : Type := { modelId : string; details : Details.t }.

Module ClosedListEntitySublist.
Record t : Type := { canonicalForm : string; list : Datatypes.list string }.
End ClosedListEntitySublist.

(** [interface TrainingResult { success; statusId; status? }] *)
Module TrainingResult.
Record t : Type := {
  success : bool;
  statusId : TrainingStatus.t;
  status : option (Datatypes.list ModelTrainingInfo)
}.
End TrainingResult.

(* ================================================================== *)
(** ** Effects: requests, delays and the remote service *)

(** The paged collections of the authoring API, one per list endpoint. *)
Inductive Collection : Type :=
| Applications
| VersionIntents (appId versionId : string)
| VersionEntities (appId versionId : string)
| VersionHierarchicalEntities (appId versionId : string)
| VersionClosedLists (appId versionId : string)
| VersionPrebuiltEntities (appId versionId : string).

(** Bodies of the creation requests. *)
Inductive Payload : Type :=
| ApplicationPayload (name description culture initialVersionId : string)
                     (usageScenario domain : option string)
| NamePayload (name : string)
| HierarchicalPayload (name : string) (children : list string)
| ClosedListPayload (name : string) (sublists : list ClosedListEntitySublist.t)
| PrebuiltPayload (entityNames : list string).

Inductive Event : Type :=
| EvGetList (c : Collection) (skip take : nat)   (* GET  <collection>?skip=..&take=.. *)
| EvPost (c : Collection) (p : Payload)          (* POST <collection> *)
| EvPostTrain (appId versionId : string)         (* POST <app>/versions/<v>/train *)
| EvGetTrain (appId versionId : string)          (* GET  <app>/versions/<v>/train *)
| EvDelay (ms : Z).                              (* setTimeout(resolve, ms) *)

Definition History : Type := list Event.

(** What the remote service answers to a request, given everything the client
    did before it. *)
Record Service : Type := {
  listResponse : History -> Collection -> nat -> nat -> list Item.t;
  createResponse : History -> Collection -> Payload -> Value;
  trainResponse : History -> string -> string -> Details.t;
  trainingStatusResponse : History -> string -> string -> list ModelTrainingInfo
}.

(** Awaited computations: the history is threaded, [None] is a loop that has
    used up its fuel. *)
Definition M (A : Type) : Type := History -> option (A * History).

Definition ret {A : Type} (a : A) : M A := fun h => Some (a, h).

Definition bind {A B : Type} (m : M A) (k : A -> M B) : M B :=
  fun h => match m h with
           | Some (a, h') => k a h'
           | None => None
           end.

Definition outOfFuel {A : Type} : M A := fun _ => None.

(** Perform one effect: answer computed from the history so far, effect logged. *)
Definition perform {A : Type} (answer : History -> A) (e : Event) : M A :=
  fun h => Some (answer h, h ++ [e]).

Declare Scope luis_scope.
Delimit Scope luis_scope with luis.
Notation "x <- m ;; k" := (bind m (fun x => k))
  (at level 61, m at next level, right associativity) : luis_scope.
Notation "m ;; k" := (bind m (fun _ => k))
  (at level 61, right associativity) : luis_scope.
Local Open Scope luis_scope.

(* ================================================================== *)
(** ** class LuisBaseAPI *)

(** [const take = 100] *)
Definition take : nat := 100.

(** One turn of the [do ... while (page.length === take)] loop of
    [getAllPages], with [skip] and [results] as loop variables. *)
Fixpoint getAllPages_loop (fuel : nat) (pagedFunction : nat -> nat -> M (list Item.t))
    (skip : nat) (results : list Item.t) : M (list Item.t) :=
  match fuel with
  | O => outOfFuel
  | S fuel' =>
      page <- pagedFunction skip take ;;
      let results := results ++ page in
      let skip := length results in
      if length page =? take
      then getAllPages_loop fuel' pagedFunction skip results
      else ret results
  end.

Definition getAllPages (fuel : nat) (pagedFunction : nat -> nat -> M (list Item.t))
    : M (list Item.t) :=
  getAllPages_loop fuel pagedFunction 0 [].

(** [filteredItems && filteredItems[0] && filteredItems[0].id]: an array is
    truthy, [filteredItems[0]] is [undefined] on the empty array and an
    object (truthy) otherwise. *)
Definition findInAllPages (fuel : nat) (pagedFunction : nat -> nat -> M (list Item.t))
    (filter : Item.t -> bool) : M Value :=
  items <- getAllPages fuel pagedFunction ;;
  let filteredItems := List.filter filter items in
  ret (match filteredItems with
       | [] => VUndefined
       | first :: _ => Item.id first
       end).

Definition delay (ms : Z) : M unit :=
  perform (fun _ => tt) (EvDelay ms).

Section Client.

Variable svc : Service.

(** [this.get] on a list endpoint. *)
Definition getList (c : Collection) (skip take : nat) : M (list Item.t) :=
  perform (fun h => listResponse svc h c skip take) (EvGetList c skip take).

(** [this.post] on a collection endpoint. *)
Definition postTo (c : Collection) (p : Payload) : M Value :=
  perform (fun h => createResponse svc h c p) (EvPost c p).

(* ---------------------------------------------------------------- *)
(** ** class LuisAppsAPI *)

Definition addApplication (name description culture initialVersionId : string)
    (usageScenario domain : option string) : M Value :=
  postTo Applications
    (ApplicationPayload name description culture initialVersionId usageScenario domain).

Definition getApplicationsList (skip take : nat) : M (list Item.t) :=
  getList Applications skip take.

Definition findApplication (fuel : nat) (name : string) : M Value :=
  findInAllPages fuel
    (fun skip take => getApplicationsList skip take)
    (fun app => strictEqStr (Item.name app) name).

(* ---------------------------------------------------------------- *)
(** ** class LuisModelsAPI *)

Definition addPrebuiltEntityList (appId versionId : string) (entityNames : list string)
    : M Value :=
  postTo (VersionPrebuiltEntities appId versionId) (PrebuiltPayload entityNames).





Definition getVersionClosedListList (appId versionId : string) (skip take : nat)
    : M (list Item.t) :=
  getList (VersionClosedLists appId versionId) skip take.

Definition findVersionClosedListEntity (fuel : nat) (appId versionId entityName : string)
    : M Value :=
  findInAllPages fuel
    (fun skip take => getVersionClosedListList appId versionId skip take)
    (fun entity => strictEqStr (Item.name entity) entityName).

Definition getVersionEntityList (appId versionId : string) (skip take : nat)
    : M (list Item.t) :=
  getList (VersionEntities appId versionId) skip take.

Definition findVersionEntity (fuel : nat) (appId versionId entityName : string)
    : M Value :=
  findInAllPages fuel
    (fun skip take => getVersionEntityList appId versionId skip take)
    (fun entity => strictEqStr (Item.name entity) entityName).

Definition getVersionHierarchicalEntityList (appId versionId : string) (skip take : nat)
    : M (list Item.t) :=
  getList (VersionHierarchicalEntities appId versionId) skip take.

Definition findVersionHierarchicalEntity (fuel : nat)
    (appId versionId entityName : string) : M Value :=
  findInAllPages fuel
    (fun skip take => getVersionHierarchicalEntityList appId versionId skip take)
    (fun entity => strictEqStr (Item.name entity) entityName).

Definition getVersionIntentList (appId versionId : string) (skip take : nat)
    : M (list Item.t) :=
  getList (VersionIntents appId versionId) skip take.

Definition findVersionIntent (fuel : nat) (appId versionId intentName : string)
    : M Value :=
  findInAllPages fuel
    (fun skip take => getVersionIntentList appId versionId skip take)
    (fun intent => strictEqStr (Item.name intent) intentName).

Definition getVersionPrebuiltEntityList (appId versionId : string) (skip take : nat)
    : M (list Item.t) :=
  getList (VersionPrebuiltEntities appId versionId) skip take.

Definition findVersionPrebuiltEntity (fuel : nat) (appId versionId entityName : string)
    : M Value :=
  findInAllPages fuel
    (fun skip take => getVersionPrebuiltEntityList appId versionId skip take)
    (fun entity => strictEqStr (Item.name entity) entityName).

(* ---------------------------------------------------------------- *)
(** ** class LuisTrainAPI *)

Definition getVersionTrainingStatus (appId versionId : string)
    : M (list ModelTrainingInfo) :=
  perform (fun h => trainingStatusResponse svc h appId versionId)
          (EvGetTrain appId versionId).

Definition trainApplicationVersion (appId versionId : string) : M Details.t :=
  perform (fun h => trainResponse svc h appId versionId) (EvPostTrain appId versionId).

(** [s => s.details.statusId === TrainingStatus.X] *)
Definition modelIs (x : TrainingStatus.t) (s : ModelTrainingInfo) : bool :=
  isStatus (Details.statusId (details s)) x.

(** The [do ... while (inProgress)] loop; its value is the last
    [currentStatus]. *)
Fixpoint waitForCompletion_loop (fuel : nat) (appId versionId : string)
    : M (list ModelTrainingInfo) :=
  match fuel with
  | O => outOfFuel
  | S fuel' =>
      delay 500 ;;
      currentStatus <- getVersionTrainingStatus appId versionId ;;
      let inProgress := existsb (modelIs TrainingStatus.InProgress) currentStatus in
      if inProgress
      then waitForCompletion_loop fuel' appId versionId
      else ret currentStatus
  end.

Definition trainApplicationVersionAndWaitForCompletion (fuel : nat)
    (appId versionId : string) : M TrainingResult.t :=
  let result := {| TrainingResult.success := false;
                   TrainingResult.statusId := TrainingStatus.Fail;
                   TrainingResult.status := None |} in
  initialStatus <- trainApplicationVersion appId versionId ;;
  if isStatus (Details.statusId initialStatus) TrainingStatus.UpToDate then
    ret {| TrainingResult.success := true;
           TrainingResult.statusId := TrainingStatus.UpToDate;
           TrainingResult.status := None |}
  else if isStatus (Details.statusId initialStatus) TrainingStatus.Queued then
    currentStatus <- waitForCompletion_loop fuel appId versionId ;;
    if existsb (modelIs TrainingStatus.Fail) currentStatus then
      ret {| TrainingResult.success := false;
             TrainingResult.statusId := TrainingStatus.Fail;
             TrainingResult.status := Some currentStatus |}
    else if forallb (modelIs TrainingStatus.UpToDate) currentStatus then
      ret {| TrainingResult.success := true;
             TrainingResult.statusId := TrainingStatus.UpToDate;
             TrainingResult.status := None |}
    else
      ret {| TrainingResult.success := true;
             TrainingResult.statusId := TrainingStatus.Success;
             TrainingResult.status := None |}
  else
    ret result.

End Client.

(* ================================================================== *)
(** ** The find-or-create sequences of [main] *)

(** [let id = await find(...); if (!id) { id = await create(...); }] *)
Definition findOrCreate (find create : M Value) : M Value :=
  id <- find ;;
  if negb (truthy id) then create else ret id.

(** Lines 14-18 of the script, for an application of any name. *)
Definition findOrCreateApplication (svc : Service) (fuel : nat)
    (name description culture initialVersionId : string) : M Value :=
  findOrCreate (findApplication svc fuel name)
               (addApplication svc name description culture initialVersionId None None).





(* ================================================================== *)
(** ** Vocabulary of the statements *)

(** [pagedFunction] serves the fixed collection [coll] page by page: the
    answer to (skip, take) is the next [min take remaining] items, and each
    call is one request [ev skip take]. *)
Definition Serves (pagedFunction : nat -> nat -> M (list Item.t))
    (coll : list Item.t) (ev : nat -> nat -> Event) : Prop :=
  forall skip tk h,
    pagedFunction skip tk h = Some (firstn tk (skipn skip coll), h ++ [ev skip tk]).


(** The [n] page requests of a scan: offsets 0, 100, 200, ... *)
Definition pageRequests (ev : nat -> nat -> Event) (n : nat) : History :=
  map (fun k => ev (k * 100) 100) (seq 0 n).

(** Ceiling of [a / b]. *)
Definition ceilDiv (a b : nat) : nat := (a + b - 1) / b.

(** The number of requests the specification announces for a collection of
    [m] items and pages of 100. *)
Definition requestCount (m : nat) : nat :=
  if m mod 100 =? 0 then ceilDiv (m + 1) 100 else ceilDiv m 100.

(** A fetch function that always answers, with any dependence on the
    arguments and on the history. *)
Definition liftFetch (fetch : nat -> nat -> History -> list Item.t * History)
    : nat -> nat -> M (list Item.t) :=
  fun skip tk h => Some (fetch skip tk h).

(** Accumulated results and history after [k] fetches of the scan started at
    history [h0], the stopping test being left out. *)
Fixpoint fetched (fetch : nat -> nat -> History -> list Item.t * History)
    (h0 : History) (k : nat) : list Item.t * History :=
  match k with
  | O => ([], h0)
  | S k' =>
      let '(results, h) := fetched fetch h0 k' in
      let '(page, h') := fetch (length results) take h in
      (results ++ page, h')
  end.

(** The page answered to fetch number [k] (from 0) of that scan. *)
Definition nthPage (fetch : nat -> nat -> History -> list Item.t * History)
    (h0 : History) (k : nat) : list Item.t :=
  fst (fetch (length (fst (fetched fetch h0 k))) take (snd (fetched fetch h0 k))).

(** A model entry has status [x]. *)
Definition HasStatus (x : TrainingStatus.t) (s : ModelTrainingInfo) : Prop :=
  Details.statusId (details s) = VNum (TrainingStatus.code x).

(** The effects of [k] turns of the polling loop: a 500 ms delay, then one
    fetch of the status list, [k] times. *)
Fixpoint pollRounds (appId versionId : string) (k : nat) : History :=
  match k with
  | O => []
  | S k' => pollRounds appId versionId k' ++ [EvDelay 500; EvGetTrain appId versionId]
  end.

(** The status list answered to poll number [k] (from 0) of a polling loop
    entered at history [h1]. *)
Definition pollAnswer (svc : Service) (h1 : History) (appId versionId : string)
    (k : nat) : list ModelTrainingInfo :=
  trainingStatusResponse svc (h1 ++ pollRounds appId versionId k ++ [EvDelay 500])
    appId versionId.

Definition isStatusPoll (e : Event) : bool :=
  match e with EvGetTrain _ _ => true | _ => false end.

Definition isCreation (e : Event) : bool :=
  match e with EvPost _ _ => true | _ => false end.

(** Number of status-poll calls, and of creation calls, in a history. *)
Definition statusPolls (h : History) : nat := length (filter isStatusPoll h).
Definition creationCalls (h : History) : nat := length (filter isCreation h).

(** [name] is the name of the item, as [item.name === name] decides it. *)
Definition Named (name : string) (item : Item.t) : Prop := Item.name item = VStr name.

(** A test double of the remote service: fixed collections, one identifier
    handed out by every creation, a fixed immediate training status, and
    scripted status lists ([polls k] answers the poll that follows [k]
    earlier polls). *)
Definition scriptedService (colls : Collection -> list Item.t) (newId : Value)
    (initial : Value) (polls : nat -> list ModelTrainingInfo) : Service :=
  {| listResponse := fun _ c skip tk => firstn tk (skipn skip (colls c));
     createResponse := fun _ _ _ => newId;
     trainResponse := fun _ _ _ => {| Details.statusId := initial |};
     trainingStatusResponse := fun h _ _ => polls (statusPolls h) |}.

Definition model (m : string) (x : TrainingStatus.t) : ModelTrainingInfo :=
  {| modelId := m; details := {| Details.statusId := VNum (TrainingStatus.code x) |} |}.

Definition item (name id : string) : Item.t :=
  {| Item.name := VStr name; Item.id := VStr id |}.

(** [x] is the first item of [items] whose name is [name]. *)
Definition FirstNamed (name : string) (items : list Item.t) (x : Item.t) : Prop :=
  exists pre post,
    items = pre ++ x :: post /\ Forall (fun y => ~ Named name y) pre /\ Named name x.

(** [find] returns the identifier of the first item of the scanned collection
    whose name is [name], [undefined] when there is none, and leaves the
    history where the scan left it; it does not return when the scan does
    not. *)
Definition FindsFirstNamed (find : M Value) (scan : M (list Item.t)) (name : string)
    : Prop :=
  forall h,
    match scan h with
    | None => find h = None
    | Some (items, h') =>
        (forall x, FirstNamed name items x -> find h = Some (Item.id x, h'))
        /\ (Forall (fun y => ~ Named name y) items -> find h = Some (VUndefined, h'))
    end.

(** The filter of the find operations: [item => item.name === name]. *)
Definition nameIs (name : string) : Item.t -> bool :=
  fun item => strictEqStr (Item.name item) name.

(** Sample data: 200 applications named "Other", then the one named "Test". *)
Definition otherApps : list Item.t := repeat (item "Other" "id-0") 200.
Definition sampleApps : list Item.t := otherApps ++ [item "Test" "id-1"].

(** An application named "Test" whose identifier is the empty string. *)
Definition blankIdApp : Item.t := {| Item.name := VStr "Test"; Item.id := VStr "" |}.

Definition sampleService (apps : list Item.t) (initial : TrainingStatus.t)
    (polls : nat -> list ModelTrainingInfo) : Service :=
  scriptedService (fun _ => apps) (VStr "id-new") (VNum (TrainingStatus.code initial)) polls.

(** A fetch function serving [coll] page by page. *)
Definition serveFetch (coll : list Item.t) : nat -> nat -> History -> list Item.t * History :=
  fun skip tk h => (firstn tk (skipn skip coll), h ++ [EvGetList Applications skip tk]).

(** [{ success, statusId, status }] *)
Definition trainingResult (success : bool) (statusId : TrainingStatus.t)
    (status : option (list ModelTrainingInfo)) : TrainingResult.t :=
  {| TrainingResult.success := success;
     TrainingResult.statusId := statusId;
     TrainingResult.status := status |}.

(** Scripted polls: one model in progress at the first poll, then the given
    final list for ever. *)
Definition busyThen (final : list ModelTrainingInfo) (k : nat) : list ModelTrainingInfo :=
  match k with
  | O => [model "intent" TrainingStatus.InProgress; model "entity" TrainingStatus.Success]
  | S _ => final
  end.

(** The list request on collection [c], as a fetch function: [getList svc c]
    is [liftFetch (listFetch svc c)]. *)
Definition listFetch (svc : Service) (c : Collection)
    : nat -> nat -> History -> list Item.t * History :=
  fun skip tk h => (listResponse svc h c skip tk, h ++ [EvGetList c skip tk]).

(** The answer of the service to page request number [k] (from 0) of a scan of
    collection [c] started at history [h]: the request at offset [100 * k],
    made after the [k] earlier page requests. *)
Definition pageAnswer (svc : Service) (c : Collection) (h : History) (k : nat)
    : list Item.t :=
  listResponse svc (h ++ pageRequests (EvGetList c) k) c (k * 100) 100.

Definition isTrainingStart (e : Event) : bool :=
  match e with EvPostTrain _ _ => true | _ => false end.

(** Number of training submissions in a history. *)
Definition trainingStarts (h : History) : nat := length (filter isTrainingStart h).

(** From history [h] on, and as long as the client creates nothing more, the
    collection [c] reads [coll]. *)
Definition ServesAfter (svc : Service) (c : Collection) (h : History)
    (coll : list Item.t) : Prop :=
  forall reqs skip tk,
    creationCalls reqs = 0 ->
    listResponse svc (h ++ reqs) c skip tk = firstn tk (skipn skip coll).

(** A find operation that only reads: a returning run adds [n >= 1] page
    requests on collection [c], at offsets 0, 100, ..., and nothing else. *)
Definition OnlyReads (find : M Value) (c : Collection) : Prop :=
  forall h v h',
    find h = Some (v, h') ->
    exists n, 1 <= n /\ h' = h ++ pageRequests (EvGetList c) n.

(** The applications created so far, as a remote store would list them. *)
Fixpoint createdApps (h : History) : list Item.t :=
  match h with
  | [] => []
  | EvPost Applications (ApplicationPayload name _ _ _ _ _) :: h' =>
      {| Item.name := VStr name; Item.id := VStr "id-new" |} :: createdApps h'
  | _ :: h' => createdApps h'
  end.

(** A test double with memory: the application list is [initial] followed by
    the applications created in the history. *)
Definition storeService (initial : list Item.t) : Service :=
  {| listResponse := fun h c skip tk =>
       match c with
       | Applications => firstn tk (skipn skip (initial ++ createdApps h))
       | _ => []
       end;
     createResponse := fun _ _ _ => VStr "id-new";
     trainResponse := fun _ _ _ =>
       {| Details.statusId := VNum (TrainingStatus.code TrainingStatus.UpToDate) |};
     trainingStatusResponse := fun _ _ _ => [] |}.

(** A fetch function that answers everything at once, whatever [take]. *)
Definition dumpFetch (coll : list Item.t) : nat -> nat -> History -> list Item.t * History :=
  fun skip tk h => (skipn skip coll, h ++ [EvGetList Applications skip tk]).

(* ================================================================== *)
(** ** The paged-collection scanner *)

Lemma take_pos : 0 < take.
Proof. unfold take; lia. Qed.

Lemma div_step (m tk : nat) : 0 < tk -> tk <= m -> m / tk = S ((m - tk) / tk).
Proof.
  intros Htk Hle.
  replace m with ((m - tk) + 1 * tk) at 1 by lia.
  rewrite Nat.div_add by lia. lia.
Qed.

Lemma skipn_prefix (results rest : list Item.t) :
  skipn (length results) (results ++ rest) = rest.
Proof.
  rewrite skipn_app, skipn_all, Nat.sub_diag. reflexivity.
Qed.

Lemma requestCount_eq (m : nat) : requestCount m = m / 100 + 1.
Proof.
  unfold requestCount, ceilDiv.
  destruct (Nat.eqb_spec (m mod 100) 0) as [Hz | Hnz].
  - replace (m + 1 + 100 - 1) with (m + 1 * 100) by lia.
    apply Nat.div_add. lia.
  - symmetry. apply Nat.div_unique with (r := m mod 100 - 1).
    + pose proof (Nat.mod_upper_bound m 100). lia.
    + pose proof (Nat.div_mod_eq m 100). lia.
Qed.

(** The loop on a served collection, started in the middle of the scan:
    [results] already read, [rest] still to come. *)
Lemma getAllPages_loop_serves pagedFunction coll ev :
  Serves pagedFunction coll ev ->
  forall fuel results rest h,
    coll = results ++ rest ->
    length rest / take < fuel ->
    getAllPages_loop fuel pagedFunction (length results) results h =
    Some (coll, h ++ map (fun k => ev (length results + k * take) take)
                         (seq 0 (length rest / take + 1))).
Proof.
  intros Hserves. pose proof take_pos as Hpos.
  induction fuel as [| fuel IH]; intros results rest h Hcoll Hfuel; [lia |].
  cbn [getAllPages_loop]. unfold bind.
  rewrite Hserves, Hcoll, skipn_prefix.
  destruct (Nat.eqb_spec (length (firstn take rest)) take) as [Hfull | Hshort];
    rewrite length_firstn in *.
  - assert (Hle : take <= length rest) by lia.
    assert (Hdiv := div_step (length rest) take Hpos Hle).
    rewrite <- Hcoll.
    rewrite (IH (results ++ firstn take rest) (skipn take rest));
      [ | rewrite <- app_assoc, firstn_skipn; exact Hcoll
        | rewrite length_skipn; lia ].
    rewrite length_skipn, Hdiv.
    rewrite length_app, length_firstn, Nat.min_l by lia.
    rewrite <- app_assoc. do 3 f_equal.
    replace (S ((length rest - take) / take) + 1)
      with (S ((length rest - take) / take + 1)) by lia.
    cbn [seq]. rewrite <- (seq_shift _ 0). cbn [map app]. rewrite map_map.
    f_equal; [ f_equal; lia | ].
    apply map_ext. intros k. f_equal. lia.
  - assert (Hlt : length rest < take) by lia.
    rewrite firstn_all2 by lia.
    rewrite Nat.div_small by lia. cbn [seq map Nat.add].
    unfold ret. rewrite Nat.mul_0_l, Nat.add_0_r. reflexivity.
Qed.

(** The unrolled scan and the loop agree as long as pages are full. *)
Lemma getAllPages_loop_full fetch h0 :
  forall fuel k,
    (forall j, j < fuel -> length (nthPage fetch h0 (k + j)) = take) ->
    getAllPages_loop fuel (liftFetch fetch)
      (length (fst (fetched fetch h0 k))) (fst (fetched fetch h0 k))
      (snd (fetched fetch h0 k)) = None.
Proof.
  induction fuel as [| fuel IH]; intros k Hfull; [reflexivity |].
  cbn [getAllPages_loop]. unfold bind, liftFetch.
  assert (H0 := Hfull 0 ltac:(lia)). rewrite Nat.add_0_r in H0.
  unfold nthPage in H0.
  specialize (IH (S k)). cbn [fetched] in IH.
  destruct (fetched fetch h0 k) as [results h] eqn:Hk. cbn [fst snd] in *.
  destruct (fetch (length results) take h) as [page h'] eqn:Hpage.
  cbn [fst snd] in *.
  rewrite H0, Nat.eqb_refl.
  apply IH. intros j Hj.
  replace (S k + j) with (k + S j) by lia. apply Hfull. lia.
Qed.

Lemma getAllPages_loop_short fetch h0 :
  forall n fuel k,
    (forall j, j < n -> length (nthPage fetch h0 (k + j)) = take) ->
    length (nthPage fetch h0 (k + n)) <> take ->
    n < fuel ->
    getAllPages_loop fuel (liftFetch fetch)
      (length (fst (fetched fetch h0 k))) (fst (fetched fetch h0 k))
      (snd (fetched fetch h0 k)) = Some (fetched fetch h0 (S (k + n))).
Proof.
  induction n as [| n IH]; intros fuel k Hfull Hshort Hfuel;
    (destruct fuel as [| fuel]; [lia |]);
    cbn [getAllPages_loop]; unfold bind, liftFetch.
  - rewrite Nat.add_0_r in *. unfold nthPage in Hshort. cbn [fetched].
    destruct (fetched fetch h0 k) as [results h] eqn:Hk. cbn [fst snd] in *.
    destruct (fetch (length results) take h) as [page h'] eqn:Hpage.
    cbn [fst snd] in *.
    apply Nat.eqb_neq in Hshort. rewrite Hshort. reflexivity.
  - assert (H0 := Hfull 0 ltac:(lia)). rewrite Nat.add_0_r in H0.
    unfold nthPage in H0.
    specialize (IH fuel (S k)). cbn [fetched] in IH.
    replace (S k + n) with (k + S n) in IH by lia.
    destruct (fetched fetch h0 k) as [results h] eqn:Hk. cbn [fst snd] in *.
    destruct (fetch (length results) take h) as [page h'] eqn:Hpage.
    cbn [fst snd] in *.
    rewrite H0, Nat.eqb_refl.
    apply IH; [ | exact Hshort | lia ].
    intros j Hj. replace (S k + j) with (k + S j) by lia. apply Hfull. lia.
Qed.

(** Among the fetches up to a short page there is a first short one. *)
Lemma first_short_page (len : nat -> nat) (bound : nat) :
  forall n, len n < bound -> (forall k, len k <= bound) ->
  exists m, m <= n /\ len m < bound /\ forall k, k < m -> len k = bound.
Proof.
  induction n as [n IH] using lt_wf_ind. intros Hn Hle.
  destruct (Forall_Exists_dec (fun k => len k = bound)
              (fun k => Nat.eq_dec (len k) bound) (seq 0 n)) as [Hall | Hex].
  - exists n. split; [lia | split; [exact Hn |]].
    intros k Hk. rewrite Forall_forall in Hall. apply Hall.
    apply in_seq. lia.
  - apply Exists_exists in Hex. destruct Hex as [k [Hin Hk]].
    apply in_seq in Hin.
    destruct (IH k ltac:(lia)) as [m [Hm1 Hm2]]; [ | exact Hle | ].
    + specialize (Hle k). lia.
    + exists m. split; [lia | exact Hm2].
Qed.

(** C4. For the page size 100 of [getAllPages] and a collection of any size
    M served page by page (each page the next min(100, remaining) items),
    [getAllPages] returns exactly the M items of the collection, in order,
    and issues the requests at offsets 0, 100, 200, ...: ceil((M+1)/100) of
    them when M is a multiple of 100, and ceil(M/100) otherwise. *)
Theorem getAllPages_fixed_collection :
  forall pagedFunction ev (coll : list Item.t) h fuel,
    Serves pagedFunction coll ev ->
    length coll / 100 < fuel ->
    getAllPages fuel pagedFunction h
      = Some (coll, h ++ pageRequests ev (requestCount (length coll)))
    /\ length (pageRequests ev (requestCount (length coll)))
       = (if length coll mod 100 =? 0
          then ceilDiv (length coll + 1) 100
          else ceilDiv (length coll) 100).
Proof.
  intros pagedFunction ev coll h fuel Hserves Hfuel. split.
  - unfold getAllPages, pageRequests. rewrite requestCount_eq.
    change 100 with take in *.
    pose proof (getAllPages_loop_serves pagedFunction coll ev Hserves fuel [] coll h
                  eq_refl Hfuel) as Hrun.
    cbn [length Nat.add] in Hrun. exact Hrun.
  - unfold pageRequests. rewrite length_map, length_seq. reflexivity.
Qed.

(** C5. For a fetch function whose pages never exceed 100 items, the loop of
    [getAllPages] returns right after the first page shorter than 100 (an
    empty page included) and not before; it therefore terminates as soon as
    some fetch answers a short page; and when every page has exactly 100
    items no amount of fuel lets it return. *)
Theorem getAllPages_stops_at_first_short_page :
  forall fetch h0,
    (forall k, length (nthPage fetch h0 k) <= 100) ->
    (forall n,
        length (nthPage fetch h0 n) < 100 ->
        (forall k, k < n -> length (nthPage fetch h0 k) = 100) ->
        forall fuel,
          (n < fuel ->
           getAllPages fuel (liftFetch fetch) h0 = Some (fetched fetch h0 (S n)))
          /\ (fuel <= n -> getAllPages fuel (liftFetch fetch) h0 = None))
    /\ (forall n,
          length (nthPage fetch h0 n) < 100 ->
          exists m, m <= n /\
            forall fuel, m < fuel ->
              getAllPages fuel (liftFetch fetch) h0 = Some (fetched fetch h0 (S m)))
    /\ ((forall k, length (nthPage fetch h0 k) = 100) ->
        forall fuel, getAllPages fuel (liftFetch fetch) h0 = None).
Proof.
  intros fetch h0 Hle. change 100 with take in *.
  assert (Hfirst : forall n,
             length (nthPage fetch h0 n) < take ->
             (forall k, k < n -> length (nthPage fetch h0 k) = take) ->
             forall fuel, n < fuel ->
               getAllPages fuel (liftFetch fetch) h0 = Some (fetched fetch h0 (S n))).
  { intros n Hshort Hfull fuel Hfuel.
    apply (getAllPages_loop_short fetch h0 n fuel 0); [ | cbn; lia | exact Hfuel ].
    intros j Hj. apply Hfull. exact Hj. }
  split; [ | split ].
  - intros n Hshort Hfull fuel. split.
    + apply Hfirst; assumption.
    + intros Hfuel.
      apply (getAllPages_loop_full fetch h0 fuel 0).
      intros j Hj. apply Hfull. cbn. lia.
  - intros n Hshort.
    destruct (first_short_page (fun k => length (nthPage fetch h0 k)) take n Hshort Hle)
      as [m [Hmn [Hm Hbefore]]].
    exists m. split; [exact Hmn |].
    intros fuel Hfuel. apply Hfirst; assumption.
  - intros Hall fuel.
    apply (getAllPages_loop_full fetch h0 fuel 0).
    intros j _. apply Hall.
Qed.

Lemma getAllPages_fixed_collection_witness :
  getAllPages 3 (getApplicationsList (sampleService otherApps TrainingStatus.UpToDate (fun _ => []))) []
  = Some (otherApps, [EvGetList Applications 0 100;
                      EvGetList Applications 100 100;
                      EvGetList Applications 200 100]).
Proof.
  exact (proj1 (getAllPages_fixed_collection
                  (getApplicationsList
                     (sampleService otherApps TrainingStatus.UpToDate (fun _ => [])))
                  (EvGetList Applications) otherApps [] 3
                  (fun skip tk h => eq_refl)
                  ltac:(vm_compute; lia))).
Defined.

Lemma getAllPages_stops_at_first_short_page_witness :
  getAllPages 3 (liftFetch (serveFetch sampleApps)) []
  = Some (sampleApps, [EvGetList Applications 0 100;
                       EvGetList Applications 100 100;
                       EvGetList Applications 200 100])
  /\ getAllPages 2 (liftFetch (serveFetch sampleApps)) [] = None.
Proof.
  assert (Hle : forall k, length (nthPage (serveFetch sampleApps) [] k) <= 100).
  { intros k. unfold nthPage, serveFetch. cbn [fst].
    rewrite length_firstn. apply Nat.le_min_l. }
  assert (Hfull : forall k, k < 2 -> length (nthPage (serveFetch sampleApps) [] k) = 100).
  { intros k Hk. destruct k as [| [| k]]; [reflexivity | reflexivity | lia]. }
  pose proof (proj1 (getAllPages_stops_at_first_short_page (serveFetch sampleApps) [] Hle)
                2 ltac:(vm_compute; lia) Hfull) as Hrun.
  split.
  - exact (proj1 (Hrun 3) ltac:(lia)).
  - exact (proj2 (Hrun 2) ltac:(lia)).
Defined.

(* ================================================================== *)
(** ** The find operations and the find-or-create resolver *)

Lemma strictEqStr_spec (v : Value) (s : string) : strictEqStr v s = true <-> v = VStr s.
Proof.
  destruct v; cbn; try (split; [discriminate | intros H; discriminate H]).
  rewrite String.eqb_eq. split; [intros -> | intros [= ->]]; reflexivity.
Qed.

Lemma nameIs_spec (name : string) (y : Item.t) : nameIs name y = true <-> Named name y.
Proof. apply strictEqStr_spec. Qed.

Lemma nameIs_false (name : string) (y : Item.t) : ~ Named name y -> nameIs name y = false.
Proof.
  intros Hn. destruct (nameIs name y) eqn:E; [| reflexivity].
  apply nameIs_spec in E. contradiction.
Qed.

Lemma filter_unnamed (name : string) (l : list Item.t) :
  Forall (fun y => ~ Named name y) l -> filter (nameIs name) l = [].
Proof.
  induction 1 as [| y l Hy _ IH]; [reflexivity |].
  cbn [filter]. rewrite (nameIs_false _ _ Hy). exact IH.
Qed.

Lemma filter_first_named (name : string) (pre post : list Item.t) (x : Item.t) :
  Forall (fun y => ~ Named name y) pre ->
  Named name x ->
  filter (nameIs name) (pre ++ x :: post) = x :: filter (nameIs name) post.
Proof.
  intros Hpre Hx. rewrite filter_app, (filter_unnamed _ _ Hpre). cbn [filter app].
  apply nameIs_spec in Hx. rewrite Hx. reflexivity.
Qed.

Lemma findInAllPages_spec fuel pagedFunction name :
  FindsFirstNamed (findInAllPages fuel pagedFunction (nameIs name))
                  (getAllPages fuel pagedFunction) name.
Proof.
  intros h. unfold findInAllPages, bind.
  destruct (getAllPages fuel pagedFunction h) as [[items h'] |]; [| reflexivity].
  split.
  - intros x (pre & post & -> & Hpre & Hx).
    rewrite (filter_first_named _ _ _ _ Hpre Hx). reflexivity.
  - intros Hnone. rewrite (filter_unnamed _ _ Hnone). reflexivity.
Qed.

Lemma findInAllPages_first fuel pagedFunction name h items h' x :
  getAllPages fuel pagedFunction h = Some (items, h') ->
  FirstNamed name items x ->
  findInAllPages fuel pagedFunction (nameIs name) h = Some (Item.id x, h').
Proof.
  intros Hscan Hx.
  pose proof (findInAllPages_spec fuel pagedFunction name h) as Hspec.
  rewrite Hscan in Hspec. destruct Hspec as [Hfound _].
  exact (Hfound x Hx).
Qed.

Lemma findOrCreate_truthy find create h v h' :
  find h = Some (v, h') -> truthy v = true -> findOrCreate find create h = Some (v, h').
Proof.
  intros Hfind Hv. unfold findOrCreate, bind. rewrite Hfind, Hv. reflexivity.
Qed.

Lemma findOrCreate_falsy find create h v h' :
  find h = Some (v, h') -> truthy v = false -> findOrCreate find create h = create h'.
Proof.
  intros Hfind Hv. unfold findOrCreate, bind. rewrite Hfind, Hv. reflexivity.
Qed.


Lemma creationCalls_pageRequests c n h :
  creationCalls (h ++ pageRequests (EvGetList c) n) = creationCalls h.
Proof.
  unfold creationCalls, pageRequests. rewrite filter_app, length_app.
  assert (Hnone : forall l, filter isCreation
                    (map (fun k => EvGetList c (k * 100) 100) l) = []).
  { induction l as [| k l IH]; [reflexivity | exact IH]. }
  rewrite Hnone. cbn [length]. lia.
Qed.

(** C6. Each find operation filters the scanned collection by exact
    (case-sensitive, coercion-free) equality of the item's name with the
    given name and returns the [id] field of the first match, [undefined]
    when nothing matches. *)
Theorem find_operations_return_first_match :
  forall svc fuel appId versionId name,
    FindsFirstNamed (findApplication svc fuel name)
      (getAllPages fuel (getApplicationsList svc)) name
    /\ FindsFirstNamed (findVersionIntent svc fuel appId versionId name)
         (getAllPages fuel (getVersionIntentList svc appId versionId)) name
    /\ FindsFirstNamed (findVersionEntity svc fuel appId versionId name)
         (getAllPages fuel (getVersionEntityList svc appId versionId)) name
    /\ FindsFirstNamed (findVersionHierarchicalEntity svc fuel appId versionId name)
         (getAllPages fuel (getVersionHierarchicalEntityList svc appId versionId)) name
    /\ FindsFirstNamed (findVersionClosedListEntity svc fuel appId versionId name)
         (getAllPages fuel (getVersionClosedListList svc appId versionId)) name
    /\ FindsFirstNamed (findVersionPrebuiltEntity svc fuel appId versionId name)
         (getAllPages fuel (getVersionPrebuiltEntityList svc appId versionId)) name.
Proof.
  intros svc fuel appId versionId name.
  repeat split; apply findInAllPages_spec.
Qed.

Lemma find_operations_return_first_match_witness :
  findApplication (sampleService sampleApps TrainingStatus.UpToDate (fun _ => [])) 3 "Test" []
  = Some (VStr "id-1", [EvGetList Applications 0 100;
                        EvGetList Applications 100 100;
                        EvGetList Applications 200 100])
  /\ findApplication (sampleService sampleApps TrainingStatus.UpToDate (fun _ => [])) 3 "test" []
     = Some (VUndefined, [EvGetList Applications 0 100;
                          EvGetList Applications 100 100;
                          EvGetList Applications 200 100]).
Proof.
  set (svc := sampleService sampleApps TrainingStatus.UpToDate (fun _ => [])).
  assert (Hscan : getAllPages 3 (getApplicationsList svc) []
                  = Some (sampleApps, [EvGetList Applications 0 100;
                                       EvGetList Applications 100 100;
                                       EvGetList Applications 200 100]))
    by (vm_compute; reflexivity).
  split.
  - pose proof (proj1 (find_operations_return_first_match svc 3 "" "" "Test") [])
      as Hfind.
    rewrite Hscan in Hfind. destruct Hfind as [Hfound _].
    apply (Hfound (item "Test" "id-1")).
    exists otherApps, []. split; [reflexivity | split; [| reflexivity]].
    apply Forall_forall. intros y Hy. apply repeat_spec in Hy. subst y. discriminate.
  - pose proof (proj1 (find_operations_return_first_match svc 3 "" "" "test") [])
      as Hfind.
    rewrite Hscan in Hfind. destruct Hfind as [_ Hnone].
    apply Hnone. unfold sampleApps. apply Forall_app. split.
    + apply Forall_forall. intros y Hy. apply repeat_spec in Hy. subst y. discriminate.
    + constructor; [discriminate | constructor].
Defined.

(** C10. When the first application of the scanned collection that bears the
    requested name has a falsy [id] (absent, empty string, ...), the find
    returns that falsy value, and the find-or-create sequence runs the
    creation call although an application of that name is in the collection. *)
Theorem falsy_identifier_triggers_creation :
  forall svc fuel name description culture initialVersionId h items h' x,
    getAllPages fuel (getApplicationsList svc) h = Some (items, h') ->
    FirstNamed name items x ->
    truthy (Item.id x) = false ->
    findInAllPages fuel (getApplicationsList svc) (nameIs name) h = Some (Item.id x, h')
    /\ (forall create, findOrCreate (findApplication svc fuel name) create h = create h')
    /\ findOrCreateApplication svc fuel name description culture initialVersionId h
       = Some (createResponse svc h' Applications
                 (ApplicationPayload name description culture initialVersionId None None),
               h' ++ [EvPost Applications
                        (ApplicationPayload name description culture initialVersionId
                           None None)]).
Proof.
  intros svc fuel name description culture initialVersionId h items h' x
         Hscan Hx Hfalsy.
  pose proof (findInAllPages_first _ _ _ _ _ _ _ Hscan Hx) as Hfind.
  split; [exact Hfind | split].
  - intros create.
    exact (findOrCreate_falsy (findApplication svc fuel name) create h _ _ Hfind Hfalsy).
  - unfold findOrCreateApplication.
    rewrite (findOrCreate_falsy (findApplication svc fuel name) _ h _ _ Hfind Hfalsy).
    reflexivity.
Qed.

Lemma falsy_identifier_triggers_creation_witness :
  findOrCreateApplication
    (sampleService [blankIdApp] TrainingStatus.UpToDate (fun _ => [])) 1
    "Test" "A test LUIS app created programmatically" "en-us" "0.1" []
  = Some (VStr "id-new",
          [EvGetList Applications 0 100;
           EvPost Applications
             (ApplicationPayload "Test" "A test LUIS app created programmatically"
                "en-us" "0.1" None None)]).
Proof.
  refine (proj2 (proj2 (falsy_identifier_triggers_creation
            (sampleService [blankIdApp] TrainingStatus.UpToDate (fun _ => [])) 1
            "Test" "A test LUIS app created programmatically" "en-us" "0.1" []
            [blankIdApp] [EvGetList Applications 0 100] blankIdApp
            eq_refl _ eq_refl))).
  exists [], []. split; [reflexivity | split; [constructor | reflexivity]].
Defined.




(* ================================================================== *)
(** ** The training-completion poller *)

Lemma strictEqNum_spec (v : Value) (z : Z) : strictEqNum v z = true <-> v = VNum z.
Proof.
  destruct v; cbn; try (split; [discriminate | intros H; discriminate H]).
  rewrite Z.eqb_eq. split; [intros -> | intros [= ->]]; reflexivity.
Qed.

Lemma isStatus_false (v : Value) (x : TrainingStatus.t) :
  v <> VNum (TrainingStatus.code x) -> isStatus v x = false.
Proof.
  intros Hne. destruct (isStatus v x) eqn:E; [| reflexivity].
  apply strictEqNum_spec in E. contradiction.
Qed.

Lemma modelIs_spec (x : TrainingStatus.t) (s : ModelTrainingInfo) :
  modelIs x s = true <-> HasStatus x s.
Proof. apply strictEqNum_spec. Qed.

Lemma existsb_modelIs (x : TrainingStatus.t) (l : list ModelTrainingInfo) :
  existsb (modelIs x) l = true <-> Exists (HasStatus x) l.
Proof.
  rewrite existsb_exists, Exists_exists.
  split; intros [s [Hin Hs]]; exists s; (split; [exact Hin | apply modelIs_spec, Hs]).
Qed.

Lemma existsb_modelIs_false (x : TrainingStatus.t) (l : list ModelTrainingInfo) :
  ~ Exists (HasStatus x) l -> existsb (modelIs x) l = false.
Proof.
  intros Hn. destruct (existsb (modelIs x) l) eqn:E; [| reflexivity].
  apply existsb_modelIs in E. contradiction.
Qed.

Lemma forallb_modelIs (x : TrainingStatus.t) (l : list ModelTrainingInfo) :
  forallb (modelIs x) l = true <-> Forall (HasStatus x) l.
Proof.
  rewrite forallb_forall, Forall_forall.
  split; intros H s Hin; apply modelIs_spec, H, Hin.
Qed.

Lemma forallb_modelIs_false (x : TrainingStatus.t) (l : list ModelTrainingInfo) :
  ~ Forall (HasStatus x) l -> forallb (modelIs x) l = false.
Proof.
  intros Hn. destruct (forallb (modelIs x) l) eqn:E; [| reflexivity].
  apply forallb_modelIs in E. contradiction.
Qed.

(** One turn of the polling loop entered at [h1], after [k] earlier turns. *)
Lemma waitForCompletion_loop_turn svc fuel appId versionId h1 k :
  waitForCompletion_loop svc (S fuel) appId versionId
    (h1 ++ pollRounds appId versionId k)
  = if existsb (modelIs TrainingStatus.InProgress) (pollAnswer svc h1 appId versionId k)
    then waitForCompletion_loop svc fuel appId versionId
           (h1 ++ pollRounds appId versionId (S k))
    else Some (pollAnswer svc h1 appId versionId k,
               h1 ++ pollRounds appId versionId (S k)).
Proof.
  cbn [waitForCompletion_loop pollRounds].
  unfold bind, delay, getVersionTrainingStatus, perform, pollAnswer, ret.
  rewrite <- !app_assoc. cbn [app].
  destruct (existsb (modelIs TrainingStatus.InProgress) _); reflexivity.
Qed.

Lemma waitForCompletion_loop_busy svc appId versionId h1 :
  forall fuel k,
    (forall j, j < fuel ->
       Exists (HasStatus TrainingStatus.InProgress)
              (pollAnswer svc h1 appId versionId (k + j))) ->
    waitForCompletion_loop svc fuel appId versionId
      (h1 ++ pollRounds appId versionId k) = None.
Proof.
  induction fuel as [| fuel IH]; intros k Hbusy; [reflexivity |].
  rewrite waitForCompletion_loop_turn.
  assert (H0 := Hbusy 0 ltac:(lia)). rewrite Nat.add_0_r in H0.
  apply existsb_modelIs in H0. rewrite H0.
  apply IH. intros j Hj.
  replace (S k + j) with (k + S j) by lia. apply Hbusy. lia.
Qed.

Lemma waitForCompletion_loop_done svc appId versionId h1 :
  forall n fuel k,
    (forall j, j < n ->
       Exists (HasStatus TrainingStatus.InProgress)
              (pollAnswer svc h1 appId versionId (k + j))) ->
    ~ Exists (HasStatus TrainingStatus.InProgress)
             (pollAnswer svc h1 appId versionId (k + n)) ->
    n < fuel ->
    waitForCompletion_loop svc fuel appId versionId
      (h1 ++ pollRounds appId versionId k)
    = Some (pollAnswer svc h1 appId versionId (k + n),
            h1 ++ pollRounds appId versionId (S (k + n))).
Proof.
  induction n as [| n IH]; intros fuel k Hbusy Hdone Hfuel;
    (destruct fuel as [| fuel]; [lia |]);
    rewrite waitForCompletion_loop_turn.
  - rewrite Nat.add_0_r in *.
    rewrite (existsb_modelIs_false _ _ Hdone). reflexivity.
  - assert (H0 := Hbusy 0 ltac:(lia)). rewrite Nat.add_0_r in H0.
    apply existsb_modelIs in H0. rewrite H0.
    replace (k + S n) with (S k + n) in * by lia.
    apply IH; [ | exact Hdone | lia ].
    intros j Hj. replace (S k + j) with (k + S j) by lia. apply Hbusy. lia.
Qed.

(** The poller when the immediate status is [Queued]. *)
Lemma poller_queued svc fuel appId versionId h :
  Details.statusId (trainResponse svc h appId versionId)
    = VNum (TrainingStatus.code TrainingStatus.Queued) ->
  trainApplicationVersionAndWaitForCompletion svc fuel appId versionId h
  = match waitForCompletion_loop svc fuel appId versionId
            (h ++ [EvPostTrain appId versionId]) with
    | None => None
    | Some (currentStatus, h') =>
        Some (if existsb (modelIs TrainingStatus.Fail) currentStatus then
                {| TrainingResult.success := false;
                   TrainingResult.statusId := TrainingStatus.Fail;
                   TrainingResult.status := Some currentStatus |}
              else if forallb (modelIs TrainingStatus.UpToDate) currentStatus then
                {| TrainingResult.success := true;
                   TrainingResult.statusId := TrainingStatus.UpToDate;
                   TrainingResult.status := None |}
              else
                {| TrainingResult.success := true;
                   TrainingResult.statusId := TrainingStatus.Success;
                   TrainingResult.status := None |}, h')
    end.
Proof.
  intros Hinit.
  unfold trainApplicationVersionAndWaitForCompletion, bind,
    trainApplicationVersion, perform.
  rewrite Hinit. cbn [isStatus strictEqNum TrainingStatus.code Z.eqb Pos.eqb].
  destruct (waitForCompletion_loop svc fuel appId versionId
              (h ++ [EvPostTrain appId versionId])) as [[currentStatus h'] |];
    [| reflexivity].
  destruct (existsb (modelIs TrainingStatus.Fail) currentStatus); [reflexivity |].
  destruct (forallb (modelIs TrainingStatus.UpToDate) currentStatus); reflexivity.
Qed.

(** A returning polling loop stopped at the first answer without an entry in
    progress. *)
Lemma waitForCompletion_loop_inv svc appId versionId h1 :
  forall fuel k L h',
    waitForCompletion_loop svc fuel appId versionId
      (h1 ++ pollRounds appId versionId k) = Some (L, h') ->
    exists n,
      n < fuel
      /\ (forall j, j < n ->
            Exists (HasStatus TrainingStatus.InProgress)
                   (pollAnswer svc h1 appId versionId (k + j)))
      /\ ~ Exists (HasStatus TrainingStatus.InProgress)
                  (pollAnswer svc h1 appId versionId (k + n))
      /\ L = pollAnswer svc h1 appId versionId (k + n)
      /\ h' = h1 ++ pollRounds appId versionId (S (k + n)).
Proof.
  induction fuel as [| fuel IH]; intros k L h' Hrun; [discriminate Hrun |].
  rewrite waitForCompletion_loop_turn in Hrun.
  destruct (existsb (modelIs TrainingStatus.InProgress)
              (pollAnswer svc h1 appId versionId k)) eqn:Hbusy.
  - destruct (IH (S k) L h' Hrun) as (n & Hn & Hbefore & Hdone & HL & Hh).
    exists (S n). replace (k + S n) with (S k + n) by lia.
    repeat split; try assumption; [lia |].
    intros j Hj. destruct j as [| j].
    + rewrite Nat.add_0_r. apply existsb_modelIs. exact Hbusy.
    + replace (k + S j) with (S k + j) by lia. apply Hbefore. lia.
  - injection Hrun as <- <-.
    exists 0. rewrite Nat.add_0_r. repeat split; [lia | intros j Hj; lia |].
    intros Hex. apply existsb_modelIs in Hex. rewrite Hex in Hbusy. discriminate Hbusy.
Qed.

Lemma waitForCompletion_loop_inv0 svc appId versionId h1 fuel L h' :
  waitForCompletion_loop svc fuel appId versionId h1 = Some (L, h') ->
  exists n,
    n < fuel
    /\ (forall j, j < n ->
          Exists (HasStatus TrainingStatus.InProgress)
                 (pollAnswer svc h1 appId versionId j))
    /\ ~ Exists (HasStatus TrainingStatus.InProgress)
                (pollAnswer svc h1 appId versionId n)
    /\ L = pollAnswer svc h1 appId versionId n
    /\ h' = h1 ++ pollRounds appId versionId (S n).
Proof.
  intros Hrun.
  apply (waitForCompletion_loop_inv svc appId versionId h1 fuel 0 L h').
  change (pollRounds appId versionId 0) with (@nil Event).
  rewrite app_nil_r. exact Hrun.
Qed.

Lemma statusPolls_app h1 h2 : statusPolls (h1 ++ h2) = statusPolls h1 + statusPolls h2.
Proof. unfold statusPolls. rewrite filter_app, length_app. reflexivity. Qed.

Lemma statusPolls_pollRounds appId versionId k :
  statusPolls (pollRounds appId versionId k) = k.
Proof.
  induction k as [| k IH]; [reflexivity |].
  cbn [pollRounds]. rewrite statusPolls_app, IH. cbn. lia.
Qed.

(** The rounds of a polling loop, first round first. *)
Lemma pollRounds_first appId versionId k :
  pollRounds appId versionId (S k)
  = [EvDelay 500; EvGetTrain appId versionId] ++ pollRounds appId versionId k.
Proof.
  induction k as [| k IH]; [reflexivity |].
  change (pollRounds appId versionId (S (S k)))
    with (pollRounds appId versionId (S k) ++ [EvDelay 500; EvGetTrain appId versionId]).
  rewrite IH at 1. rewrite <- app_assoc. reflexivity.
Qed.

(** C1. When the immediate status is [Queued] and the polling loop exits with
    the final status list [L], the poller returns at the history where the
    loop stopped, with: failure, status [Fail] and [L] attached if some
    entry of [L] is [Fail]; otherwise success with status [UpToDate] if
    every entry is [UpToDate]; otherwise success with status [Success]. *)
Theorem aggregate_classification :
  forall svc fuel appId versionId h L h',
    Details.statusId (trainResponse svc h appId versionId)
      = VNum (TrainingStatus.code TrainingStatus.Queued) ->
    waitForCompletion_loop svc fuel appId versionId (h ++ [EvPostTrain appId versionId])
      = Some (L, h') ->
    exists r,
      trainApplicationVersionAndWaitForCompletion svc fuel appId versionId h = Some (r, h')
      /\ (Exists (HasStatus TrainingStatus.Fail) L ->
          r = trainingResult false TrainingStatus.Fail (Some L))
      /\ (~ Exists (HasStatus TrainingStatus.Fail) L ->
          Forall (HasStatus TrainingStatus.UpToDate) L ->
          r = trainingResult true TrainingStatus.UpToDate None)
      /\ (~ Exists (HasStatus TrainingStatus.Fail) L ->
          ~ Forall (HasStatus TrainingStatus.UpToDate) L ->
          r = trainingResult true TrainingStatus.Success None).
Proof.
  intros svc fuel appId versionId h L h' Hinit Hloop.
  rewrite (poller_queued _ _ _ _ _ Hinit), Hloop.
  eexists. split; [reflexivity |].
  split; [| split].
  - intros Hfail. apply existsb_modelIs in Hfail. rewrite Hfail. reflexivity.
  - intros Hnofail Hall.
    rewrite (existsb_modelIs_false _ _ Hnofail).
    apply forallb_modelIs in Hall. rewrite Hall. reflexivity.
  - intros Hnofail Hnotall.
    rewrite (existsb_modelIs_false _ _ Hnofail), (forallb_modelIs_false _ _ Hnotall).
    reflexivity.
Qed.

Lemma aggregate_classification_witness :
  trainApplicationVersionAndWaitForCompletion
    (sampleService [] TrainingStatus.Queued
       (busyThen [model "intent" TrainingStatus.Success;
                  model "entity" TrainingStatus.UpToDate]))
    2 "app" "0.1" []
  = Some (trainingResult true TrainingStatus.Success None,
          [EvPostTrain "app" "0.1";
           EvDelay 500; EvGetTrain "app" "0.1";
           EvDelay 500; EvGetTrain "app" "0.1"]).
Proof.
  destruct (aggregate_classification
              (sampleService [] TrainingStatus.Queued
                 (busyThen [model "intent" TrainingStatus.Success;
                            model "entity" TrainingStatus.UpToDate]))
              2 "app" "0.1" []
              [model "intent" TrainingStatus.Success;
               model "entity" TrainingStatus.UpToDate]
              [EvPostTrain "app" "0.1";
               EvDelay 500; EvGetTrain "app" "0.1";
               EvDelay 500; EvGetTrain "app" "0.1"]
              eq_refl eq_refl) as (r & Hrun & _ & _ & Hmixed).
  rewrite Hrun, Hmixed; [reflexivity | |].
  - intros Hex. apply Exists_exists in Hex. destruct Hex as (s & Hin & Hs).
    destruct Hin as [<- | [<- | []]]; discriminate Hs.
  - intros Hall. apply Forall_inv in Hall. discriminate Hall.
Defined.

(** C2. The poller dispatches on the immediate status of the training-start
    call.  [UpToDate] gives success with status [UpToDate], and any value
    other than [UpToDate] and [Queued] gives failure with status [Fail]; in
    both cases the start call is the only effect: there is no status poll.
    [Queued] enters the polling loop: a run that returns has, right after the
    start call, waited 500 ms and polled the status at least once, and has
    done so once per answer up to the first one without an [InProgress]
    entry; and the poller does return, after these rounds, as soon as the
    fuel exceeds the index of that answer. *)
Theorem immediate_status_dispatch :
  forall svc fuel appId versionId h,
    let initial := Details.statusId (trainResponse svc h appId versionId) in
    let h1 := h ++ [EvPostTrain appId versionId] in
    let answer := pollAnswer svc h1 appId versionId in
    (initial = VNum (TrainingStatus.code TrainingStatus.UpToDate) ->
     trainApplicationVersionAndWaitForCompletion svc fuel appId versionId h
     = Some (trainingResult true TrainingStatus.UpToDate None, h1))
    /\ (initial = VNum (TrainingStatus.code TrainingStatus.Queued) ->
        option_map snd
          (trainApplicationVersionAndWaitForCompletion svc fuel appId versionId h)
        = option_map snd (waitForCompletion_loop svc fuel appId versionId h1)
        /\ (forall r h',
              trainApplicationVersionAndWaitForCompletion svc fuel appId versionId h
              = Some (r, h') ->
              exists n,
                n < fuel
                /\ (forall j, j < n ->
                      Exists (HasStatus TrainingStatus.InProgress) (answer j))
                /\ ~ Exists (HasStatus TrainingStatus.InProgress) (answer n)
                /\ h' = h ++ [EvPostTrain appId versionId;
                              EvDelay 500; EvGetTrain appId versionId]
                           ++ pollRounds appId versionId n
                /\ h' = h1 ++ pollRounds appId versionId (S n)
                /\ statusPolls h' = statusPolls h + S n)
        /\ (forall n,
              (forall j, j < n ->
                 Exists (HasStatus TrainingStatus.InProgress) (answer j)) ->
              ~ Exists (HasStatus TrainingStatus.InProgress) (answer n) ->
              n < fuel ->
              exists r,
                trainApplicationVersionAndWaitForCompletion svc fuel appId versionId h
                = Some (r, h ++ [EvPostTrain appId versionId;
                                 EvDelay 500; EvGetTrain appId versionId]
                              ++ pollRounds appId versionId n)))
    /\ (initial <> VNum (TrainingStatus.code TrainingStatus.UpToDate) ->
        initial <> VNum (TrainingStatus.code TrainingStatus.Queued) ->
        trainApplicationVersionAndWaitForCompletion svc fuel appId versionId h
        = Some (trainingResult false TrainingStatus.Fail None, h1))
    /\ statusPolls h1 = statusPolls h.
Proof.
  intros svc fuel appId versionId h initial h1 answer.
  assert (Hrounds : forall n,
             h1 ++ pollRounds appId versionId (S n)
             = h ++ [EvPostTrain appId versionId;
                     EvDelay 500; EvGetTrain appId versionId]
                 ++ pollRounds appId versionId n).
  { intros n. unfold h1. rewrite pollRounds_first, <- app_assoc. reflexivity. }
  split; [| split; [| split]].
  - intros Hinit.
    unfold trainApplicationVersionAndWaitForCompletion, bind,
      trainApplicationVersion, perform.
    fold initial. rewrite Hinit. reflexivity.
  - intros Hinit. split; [| split].
    + rewrite (poller_queued _ _ _ _ _ Hinit). fold h1.
      destruct (waitForCompletion_loop svc fuel appId versionId h1) as [[L h'] |];
        reflexivity.
    + intros r h' Hrun. rewrite (poller_queued _ _ _ _ _ Hinit) in Hrun. fold h1 in Hrun.
      destruct (waitForCompletion_loop svc fuel appId versionId h1) as [[L h2] |] eqn:Hloop;
        [| discriminate Hrun].
      injection Hrun as _ <-.
      destruct (waitForCompletion_loop_inv0 _ _ _ _ _ _ _ Hloop)
        as (n & Hn & Hbusy & Hdone & _ & Hh).
      exists n. split; [exact Hn |]. split; [exact Hbusy |]. split; [exact Hdone |].
      split; [rewrite Hh; apply Hrounds |]. split; [exact Hh |].
      rewrite Hh. unfold h1.
      rewrite !statusPolls_app, statusPolls_pollRounds. cbn. lia.
    + intros n Hbusy Hdone Hfuel.
      rewrite (poller_queued _ _ _ _ _ Hinit). fold h1.
      pose proof (waitForCompletion_loop_done svc appId versionId h1 n fuel 0) as Hloop.
      change (pollRounds appId versionId 0) with (@nil Event) in Hloop.
      rewrite app_nil_r in Hloop. cbn [Nat.add] in Hloop.
      rewrite (Hloop Hbusy Hdone Hfuel), Hrounds. eexists. reflexivity.
  - intros Hnot2 Hnot9.
    unfold trainApplicationVersionAndWaitForCompletion, bind,
      trainApplicationVersion, perform.
    fold initial.
    rewrite (isStatus_false _ _ Hnot2), (isStatus_false _ _ Hnot9). reflexivity.
  - unfold h1, statusPolls. rewrite filter_app, length_app. cbn. lia.
Qed.

Lemma immediate_status_dispatch_witness :
  trainApplicationVersionAndWaitForCompletion
    (sampleService [] TrainingStatus.UpToDate (fun _ => [])) 5 "app" "0.1" []
  = Some (trainingResult true TrainingStatus.UpToDate None, [EvPostTrain "app" "0.1"])
  /\ trainApplicationVersionAndWaitForCompletion
       (sampleService [] TrainingStatus.InProgress (fun _ => [])) 5 "app" "0.1" []
     = Some (trainingResult false TrainingStatus.Fail None, [EvPostTrain "app" "0.1"])
  /\ (exists r,
        trainApplicationVersionAndWaitForCompletion
          (sampleService [] TrainingStatus.Queued
             (busyThen [model "intent" TrainingStatus.Success]))
          5 "app" "0.1" []
        = Some (r, [EvPostTrain "app" "0.1";
                    EvDelay 500; EvGetTrain "app" "0.1";
                    EvDelay 500; EvGetTrain "app" "0.1"]))
  /\ (exists n,
        n < 5
        /\ [EvPostTrain "app" "0.1"; EvDelay 500; EvGetTrain "app" "0.1"]
           = [] ++ [EvPostTrain "app" "0.1"; EvDelay 500; EvGetTrain "app" "0.1"]
                ++ pollRounds "app" "0.1" n
        /\ statusPolls [EvPostTrain "app" "0.1"; EvDelay 500; EvGetTrain "app" "0.1"]
           = statusPolls [] + S n).
Proof.
  split; [| split; [| split]].
  - exact (proj1 (immediate_status_dispatch
                    (sampleService [] TrainingStatus.UpToDate (fun _ => []))
                    5 "app" "0.1" []) eq_refl).
  - apply (proj1 (proj2 (proj2 (immediate_status_dispatch
                    (sampleService [] TrainingStatus.InProgress (fun _ => []))
                    5 "app" "0.1" [])))); discriminate.
  - refine (proj2 (proj2 (proj1 (proj2 (immediate_status_dispatch
              (sampleService [] TrainingStatus.Queued
                 (busyThen [model "intent" TrainingStatus.Success]))
              5 "app" "0.1" [])) eq_refl)) 1 _ _ _).
    + intros j Hj. replace j with 0 by lia. constructor. reflexivity.
    + intros Hex. apply Exists_exists in Hex. destruct Hex as (s & Hin & Hs).
      destruct Hin as [<- | []]. discriminate Hs.
    + lia.
  - destruct (proj1 (proj2 (proj1 (proj2 (immediate_status_dispatch
                (sampleService [] TrainingStatus.Queued
                   (fun _ => [model "intent" TrainingStatus.UpToDate]))
                5 "app" "0.1" [])) eq_refl))
              (trainingResult true TrainingStatus.UpToDate None)
              [EvPostTrain "app" "0.1"; EvDelay 500; EvGetTrain "app" "0.1"]
              eq_refl)
      as (n & Hn & _ & _ & Hh & _ & Hpolls).
    exists n. split; [exact Hn | split; [exact Hh | exact Hpolls]].
Defined.

(** C3. With an immediate status [Queued], every turn of the loop is one
    500 ms delay followed by one fetch of the status list, and the loop exits
    exactly after the first fetched list without an [InProgress] entry: with
    enough fuel the poller returns after [n + 1] such turns when answer [n]
    is the first of that kind, and not with less.  In particular, when the
    first answer has an [InProgress] entry and the second has entries, all of
    them [Fail], the result is failure with status [Fail] after exactly two
    status polls. *)
Theorem polling_protocol :
  forall svc appId versionId h,
    Details.statusId (trainResponse svc h appId versionId)
      = VNum (TrainingStatus.code TrainingStatus.Queued) ->
    let h1 := h ++ [EvPostTrain appId versionId] in
    let answer := pollAnswer svc h1 appId versionId in
    (forall n,
        (forall k, k < n -> Exists (HasStatus TrainingStatus.InProgress) (answer k)) ->
        ~ Exists (HasStatus TrainingStatus.InProgress) (answer n) ->
        forall fuel,
          (n < fuel ->
           exists r,
             trainApplicationVersionAndWaitForCompletion svc fuel appId versionId h
             = Some (r, h1 ++ pollRounds appId versionId (S n)))
          /\ (fuel <= n ->
              trainApplicationVersionAndWaitForCompletion svc fuel appId versionId h
              = None))
    /\ (Exists (HasStatus TrainingStatus.InProgress) (answer 0) ->
        answer 1 <> [] ->
        Forall (HasStatus TrainingStatus.Fail) (answer 1) ->
        forall fuel, 1 < fuel ->
          trainApplicationVersionAndWaitForCompletion svc fuel appId versionId h
          = Some (trainingResult false TrainingStatus.Fail (Some (answer 1)),
                  h ++ [EvPostTrain appId versionId;
                        EvDelay 500; EvGetTrain appId versionId;
                        EvDelay 500; EvGetTrain appId versionId])
          /\ statusPolls (h ++ [EvPostTrain appId versionId;
                                EvDelay 500; EvGetTrain appId versionId;
                                EvDelay 500; EvGetTrain appId versionId])
             = statusPolls h + 2).
Proof.
  intros svc appId versionId h Hinit h1 answer. split.
  - intros n Hbusy Hdone fuel. split.
    + intros Hfuel. rewrite (poller_queued _ _ _ _ _ Hinit). fold h1.
      pose proof (waitForCompletion_loop_done svc appId versionId h1 n fuel 0
                    Hbusy Hdone Hfuel) as Hloop.
      cbn [pollRounds Nat.add] in Hloop. rewrite app_nil_r in Hloop.
      cbn [pollRounds]. rewrite Hloop. eexists. reflexivity.
    + intros Hfuel. rewrite (poller_queued _ _ _ _ _ Hinit). fold h1.
      pose proof (waitForCompletion_loop_busy svc appId versionId h1 fuel 0) as Hloop.
      cbn [pollRounds] in Hloop. rewrite app_nil_r in Hloop.
      rewrite Hloop; [reflexivity |].
      intros j Hj. apply Hbusy. cbn. lia.
  - intros Hbusy Hnonempty Hfail fuel Hfuel. split.
    + assert (Hdone : ~ Exists (HasStatus TrainingStatus.InProgress) (answer 1)).
      { intros Hex. apply Exists_exists in Hex. destruct Hex as (s & Hin & Hs).
        rewrite Forall_forall in Hfail. specialize (Hfail s Hin).
        unfold HasStatus in *. rewrite Hs in Hfail. discriminate Hfail. }
      rewrite (poller_queued _ _ _ _ _ Hinit). fold h1.
      pose proof (waitForCompletion_loop_done svc appId versionId h1 1 fuel 0)
        as Hloop.
      cbn [pollRounds Nat.add app] in Hloop. rewrite app_nil_r in Hloop.
      rewrite Hloop; [ | | exact Hdone | exact Hfuel ].
      * fold answer.
        assert (Hany : existsb (modelIs TrainingStatus.Fail) (answer 1) = true).
        { destruct (answer 1) as [| s rest]; [contradiction |].
          apply Forall_inv in Hfail. apply modelIs_spec in Hfail.
          cbn [existsb]. rewrite Hfail. reflexivity. }
        rewrite Hany. unfold h1. rewrite <- app_assoc. reflexivity.
      * intros j Hj. replace j with 0 by lia. exact Hbusy.
    + unfold statusPolls. rewrite filter_app, length_app. cbn. reflexivity.
Qed.

Lemma polling_protocol_witness :
  trainApplicationVersionAndWaitForCompletion
    (sampleService [] TrainingStatus.Queued
       (busyThen [model "intent" TrainingStatus.Fail; model "entity" TrainingStatus.Fail]))
    2 "app" "0.1" []
  = Some (trainingResult false TrainingStatus.Fail
            (Some [model "intent" TrainingStatus.Fail; model "entity" TrainingStatus.Fail]),
          [EvPostTrain "app" "0.1";
           EvDelay 500; EvGetTrain "app" "0.1";
           EvDelay 500; EvGetTrain "app" "0.1"])
  /\ trainApplicationVersionAndWaitForCompletion
       (sampleService [] TrainingStatus.Queued
          (busyThen [model "intent" TrainingStatus.Fail; model "entity" TrainingStatus.Fail]))
       1 "app" "0.1" []
     = None.
Proof.
  pose proof (polling_protocol
                (sampleService [] TrainingStatus.Queued
                   (busyThen [model "intent" TrainingStatus.Fail;
                              model "entity" TrainingStatus.Fail]))
                "app" "0.1" [] eq_refl) as [Hgeneral Hparticular].
  assert (Hbusy : Exists (HasStatus TrainingStatus.InProgress)
                    [model "intent" TrainingStatus.InProgress;
                     model "entity" TrainingStatus.Success])
    by (constructor; reflexivity).
  assert (Hfail : Forall (HasStatus TrainingStatus.Fail)
                    [model "intent" TrainingStatus.Fail;
                     model "entity" TrainingStatus.Fail])
    by (repeat constructor).
  split.
  - exact (proj1 (Hparticular Hbusy ltac:(discriminate) Hfail 2 ltac:(lia))).
  - refine (proj2 (Hgeneral 1 _ _ 1) (le_n 1)).
    + intros k Hk. replace k with 0 by lia. exact Hbusy.
    + intros Hex. apply Exists_exists in Hex. destruct Hex as (s & Hin & Hs).
      destruct Hin as [<- | [<- | []]]; discriminate Hs.
Defined.

(** C9. With an immediate status [Queued], a status poll that answers the
    empty list ends the loop on that turn, and the result is success with
    status [UpToDate]. *)
Theorem empty_status_list_is_up_to_date :
  forall svc appId versionId h n fuel,
    Details.statusId (trainResponse svc h appId versionId)
      = VNum (TrainingStatus.code TrainingStatus.Queued) ->
    let h1 := h ++ [EvPostTrain appId versionId] in
    let answer := pollAnswer svc h1 appId versionId in
    (forall k, k < n -> Exists (HasStatus TrainingStatus.InProgress) (answer k)) ->
    answer n = [] ->
    n < fuel ->
    trainApplicationVersionAndWaitForCompletion svc fuel appId versionId h
    = Some (trainingResult true TrainingStatus.UpToDate None,
            h1 ++ pollRounds appId versionId (S n)).
Proof.
  intros svc appId versionId h n fuel Hinit h1 answer Hbusy Hempty Hfuel.
  rewrite (poller_queued _ _ _ _ _ Hinit). fold h1.
  pose proof (waitForCompletion_loop_done svc appId versionId h1 n fuel 0) as Hloop.
  cbn [pollRounds Nat.add] in Hloop. rewrite app_nil_r in Hloop.
  cbn [pollRounds]. rewrite Hloop; [ | exact Hbusy | | exact Hfuel ].
  - fold answer. rewrite Hempty. reflexivity.
  - fold answer. rewrite Hempty. intros Hex. inversion Hex.
Qed.

Lemma empty_status_list_is_up_to_date_witness :
  trainApplicationVersionAndWaitForCompletion
    (sampleService [] TrainingStatus.Queued (busyThen [])) 2 "app" "0.1" []
  = Some (trainingResult true TrainingStatus.UpToDate None,
          [EvPostTrain "app" "0.1";
           EvDelay 500; EvGetTrain "app" "0.1";
           EvDelay 500; EvGetTrain "app" "0.1"]).
Proof.
  apply (empty_status_list_is_up_to_date
           (sampleService [] TrainingStatus.Queued (busyThen [])) "app" "0.1" [] 1 2
           eq_refl); [ | reflexivity | lia ].
  intros k Hk. replace k with 0 by lia. constructor. reflexivity.
Defined.

(** C8. Every result the poller returns has [success] true exactly when its
    status is [Success] or [UpToDate], and carries the raw status list only
    when [success] is false. *)
Theorem training_result_invariant :
  forall svc fuel appId versionId h r h',
    trainApplicationVersionAndWaitForCompletion svc fuel appId versionId h = Some (r, h') ->
    (TrainingResult.success r = true <->
     TrainingResult.statusId r = TrainingStatus.Success
     \/ TrainingResult.statusId r = TrainingStatus.UpToDate)
    /\ (TrainingResult.status r <> None -> TrainingResult.success r = false).
Proof.
  intros svc fuel appId versionId h r h'.
  unfold trainApplicationVersionAndWaitForCompletion, bind,
    trainApplicationVersion, perform, ret.
  destruct (isStatus _ TrainingStatus.UpToDate);
    [ | destruct (isStatus _ TrainingStatus.Queued);
        [ destruct (waitForCompletion_loop _ _ _ _ _) as [[L h2] |];
          [ destruct (existsb _ L); [ | destruct (forallb _ L) ] | ] | ] ];
    intros Hrun; try discriminate Hrun;
    injection Hrun as <- _; cbn;
    (split; [split; [intros; auto; discriminate
                    | intros [Hs | Hs]; (reflexivity || discriminate Hs)]
            | intros Hst; (reflexivity || (exfalso; apply Hst; reflexivity))]).
Qed.

Lemma training_result_invariant_witness :
  let r := trainingResult false TrainingStatus.Fail
             (Some [model "intent" TrainingStatus.Fail; model "entity" TrainingStatus.Fail]) in
  (TrainingResult.success r = true <->
   TrainingResult.statusId r = TrainingStatus.Success
   \/ TrainingResult.statusId r = TrainingStatus.UpToDate)
  /\ (TrainingResult.status r <> None -> TrainingResult.success r = false).
Proof.
  exact (training_result_invariant
           (sampleService [] TrainingStatus.Queued
              (busyThen [model "intent" TrainingStatus.Fail;
                         model "entity" TrainingStatus.Fail]))
           2 "app" "0.1" []
           (trainingResult false TrainingStatus.Fail
              (Some [model "intent" TrainingStatus.Fail;
                     model "entity" TrainingStatus.Fail]))
           [EvPostTrain "app" "0.1";
            EvDelay 500; EvGetTrain "app" "0.1";
            EvDelay 500; EvGetTrain "app" "0.1"]
           eq_refl).
Defined.

(* ================================================================== *)
(** ** More on the scanner: what a returning scan looks like *)

Lemma fetched_step fetch h0 k :
  fetched fetch h0 (S k)
  = (fst (fetched fetch h0 k) ++ nthPage fetch h0 k,
     snd (fetch (length (fst (fetched fetch h0 k))) take (snd (fetched fetch h0 k)))).
Proof.
  cbn [fetched]. unfold nthPage.
  destruct (fetched fetch h0 k) as [results h]. cbn [fst snd].
  destruct (fetch (length results) take h) as [page h']. reflexivity.
Qed.

Lemma fetched_concat fetch h0 k :
  fst (fetched fetch h0 k) = concat (map (nthPage fetch h0) (seq 0 k)).
Proof.
  induction k as [| k IH]; [reflexivity |].
  rewrite fetched_step, seq_S, map_app, concat_app. cbn [fst Nat.add map concat].
  rewrite app_nil_r, IH. reflexivity.
Qed.

Lemma fetched_full_length fetch h0 k :
  (forall j, j < k -> length (nthPage fetch h0 j) = take) ->
  length (fst (fetched fetch h0 k)) = k * take.
Proof.
  induction k as [| k IH]; intros Hfull; [reflexivity |].
  rewrite fetched_step. cbn [fst]. rewrite length_app, IH, Hfull by auto. lia.
Qed.

(** A returning loop stopped at the first page whose length is not [take]. *)
Lemma getAllPages_loop_inv fetch h0 :
  forall fuel k items h',
    getAllPages_loop fuel (liftFetch fetch)
      (length (fst (fetched fetch h0 k))) (fst (fetched fetch h0 k))
      (snd (fetched fetch h0 k)) = Some (items, h') ->
    exists n,
      n < fuel
      /\ (forall j, j < n -> length (nthPage fetch h0 (k + j)) = take)
      /\ length (nthPage fetch h0 (k + n)) <> take
      /\ (items, h') = fetched fetch h0 (S (k + n)).
Proof.
  induction fuel as [| fuel IH]; intros k items h' Hrun; [discriminate Hrun |].
  cbn [getAllPages_loop] in Hrun. unfold bind, liftFetch in Hrun.
  pose proof (fetched_step fetch h0 k) as Hstep. unfold nthPage in Hstep.
  specialize (IH (S k) items h').
  destruct (fetch (length (fst (fetched fetch h0 k))) take (snd (fetched fetch h0 k)))
    as [page h2] eqn:Hpage.
  cbn [fst snd] in Hstep.
  destruct (Nat.eqb_spec (length page) take) as [Hfull | Hshort].
  - rewrite Hstep in IH. cbn [fst snd] in IH.
    destruct (IH Hrun) as (n & Hn & Hbefore & Hlast & Hres).
    exists (S n). repeat split.
    + lia.
    + intros j Hj. destruct j as [| j].
      * rewrite Nat.add_0_r. unfold nthPage. rewrite Hpage. exact Hfull.
      * replace (k + S j) with (S k + j) by lia. apply Hbefore. lia.
    + replace (k + S n) with (S k + n) by lia. exact Hlast.
    + replace (k + S n) with (S k + n) by lia. exact Hres.
  - exists 0. rewrite Nat.add_0_r. repeat split.
    + lia.
    + intros j Hj. lia.
    + unfold nthPage. rewrite Hpage. exact Hshort.
    + rewrite Hstep. unfold ret in Hrun. injection Hrun as <- <-. reflexivity.
Qed.

Lemma pageRequests_S ev n :
  pageRequests ev (S n) = pageRequests ev n ++ [ev (n * take) take].
Proof.
  unfold pageRequests. rewrite seq_S, map_app. reflexivity.
Qed.

(** While the pages are full, the requests of a scan of collection [c] are
    the page requests at the multiples of 100. *)
Lemma fetched_list_history svc c h0 k :
  (forall j, j < k -> length (nthPage (listFetch svc c) h0 j) = take) ->
  snd (fetched (listFetch svc c) h0 (S k)) = h0 ++ pageRequests (EvGetList c) (S k).
Proof.
  induction k as [| k IH]; intros Hfull.
  - reflexivity.
  - rewrite fetched_step. cbn [snd]. unfold listFetch at 1. cbn [snd].
    rewrite IH by auto.
    rewrite (fetched_full_length _ _ (S k) Hfull).
    rewrite (pageRequests_S _ (S k)), app_assoc. reflexivity.
Qed.

Lemma getList_scan_inv svc c fuel h items h' :
  getAllPages fuel (getList svc c) h = Some (items, h') ->
  exists n,
    n < fuel
    /\ h' = h ++ pageRequests (EvGetList c) (S n)
    /\ n * take <= length items.
Proof.
  intros Hrun.
  destruct (getAllPages_loop_inv (listFetch svc c) h fuel 0 items h' Hrun)
    as (n & Hn & Hbefore & _ & Hres).
  cbn [Nat.add] in *.
  exists n. split; [exact Hn |].
  pose proof (fetched_list_history svc c h n Hbefore) as Hhist.
  pose proof (fetched_step (listFetch svc c) h n) as Hstep.
  pose proof (fetched_full_length _ _ n Hbefore) as Hlen.
  rewrite <- Hres in Hhist, Hstep. cbn [snd] in Hhist.
  split; [exact Hhist |].
  injection Hstep as -> _. rewrite length_app. lia.
Qed.

(** X1. A scan that returns has stopped at the first page whose length is
    not 100 (shorter or longer): all earlier pages have exactly 100 items,
    the result is the concatenation of the pages fetched, in order, and it
    has [100 * n + length of the last page] items after [n + 1] fetches. *)
Theorem getAllPages_returns_concatenated_pages :
  forall fetch h0 fuel items h',
    getAllPages fuel (liftFetch fetch) h0 = Some (items, h') ->
    exists n,
      n < fuel
      /\ (forall k, k < n -> length (nthPage fetch h0 k) = 100)
      /\ length (nthPage fetch h0 n) <> 100
      /\ items = concat (map (nthPage fetch h0) (seq 0 (S n)))
      /\ length items = 100 * n + length (nthPage fetch h0 n)
      /\ h' = snd (fetched fetch h0 (S n)).
Proof.
  intros fetch h0 fuel items h' Hrun. change 100 with take.
  destruct (getAllPages_loop_inv fetch h0 fuel 0 items h' Hrun)
    as (n & Hn & Hbefore & Hlast & Hres).
  cbn [Nat.add] in *.
  exists n. repeat split; try assumption.
  - rewrite <- fetched_concat, <- Hres. reflexivity.
  - replace items with (fst (fetched fetch h0 (S n))) by (rewrite <- Hres; reflexivity).
    rewrite fetched_step. cbn [fst].
    rewrite length_app, (fetched_full_length _ _ n Hbefore). lia.
  - rewrite <- Hres. reflexivity.
Qed.

Lemma getAllPages_returns_concatenated_pages_witness :
  exists n,
    n < 1
    /\ (forall k, k < n -> length (nthPage (dumpFetch sampleApps) [] k) = 100)
    /\ length (nthPage (dumpFetch sampleApps) [] n) <> 100
    /\ sampleApps = concat (map (nthPage (dumpFetch sampleApps) []) (seq 0 (S n)))
    /\ length sampleApps = 100 * n + length (nthPage (dumpFetch sampleApps) [] n)
    /\ [EvGetList Applications 0 100] = snd (fetched (dumpFetch sampleApps) [] (S n)).
Proof.
  exact (getAllPages_returns_concatenated_pages (dumpFetch sampleApps) [] 1
           sampleApps [EvGetList Applications 0 100] eq_refl).
Defined.

Lemma fetched_list_history_upto svc c h0 k :
  (forall j, j < k -> length (nthPage (listFetch svc c) h0 j) = take) ->
  snd (fetched (listFetch svc c) h0 k) = h0 ++ pageRequests (EvGetList c) k.
Proof.
  destruct k as [| k]; intros Hfull.
  - symmetry. apply app_nil_r.
  - apply fetched_list_history. intros j Hj. apply Hfull. lia.
Qed.

(** While the pages are full, the page fetched by the loop is the answer of
    the service to the request at the next multiple of 100. *)
Lemma nthPage_pageAnswer svc c h0 k :
  (forall j, j < k -> length (nthPage (listFetch svc c) h0 j) = take) ->
  nthPage (listFetch svc c) h0 k = pageAnswer svc c h0 k.
Proof.
  intros Hfull. unfold nthPage, pageAnswer. unfold listFetch at 1. cbn [fst].
  rewrite (fetched_full_length _ _ k Hfull), (fetched_list_history_upto _ _ _ k Hfull).
  reflexivity.
Qed.

(** X2. Whatever the service answers, a scan of a collection that returns has
    issued only page requests on that collection, at the offsets 0, 100,
    200, ... in this order, at least one and at most one per unit of fuel;
    the answer to every request but the last had exactly 100 items, the
    answer to the last had not; the result is these answers concatenated in
    order; and nothing was created. *)
Theorem scan_requests_are_multiples_of_100 :
  forall svc c fuel h items h',
    getAllPages fuel (getList svc c) h = Some (items, h') ->
    exists n,
      n < fuel
      /\ h' = h ++ pageRequests (EvGetList c) (S n)
      /\ (forall j, j < n -> length (pageAnswer svc c h j) = 100)
      /\ length (pageAnswer svc c h n) <> 100
      /\ items = concat (map (pageAnswer svc c h) (seq 0 (S n)))
      /\ length items = 100 * n + length (pageAnswer svc c h n)
      /\ creationCalls h' = creationCalls h.
Proof.
  intros svc c fuel h items h' Hrun. change 100 with take.
  destruct (getAllPages_loop_inv (listFetch svc c) h fuel 0 items h' Hrun)
    as (n & Hn & Hbefore & Hlast & Hres).
  cbn [Nat.add] in *.
  assert (Hpages : forall j, j <= n ->
             nthPage (listFetch svc c) h j = pageAnswer svc c h j).
  { intros j Hj. apply nthPage_pageAnswer. intros i Hi. apply Hbefore. lia. }
  assert (Hh : h' = h ++ pageRequests (EvGetList c) (S n)).
  { replace h' with (snd (fetched (listFetch svc c) h (S n)))
      by (rewrite <- Hres; reflexivity).
    apply fetched_list_history. exact Hbefore. }
  assert (Hitems : items = fst (fetched (listFetch svc c) h (S n)))
    by (rewrite <- Hres; reflexivity).
  exists n. split; [exact Hn |]. split; [exact Hh |].
  split; [intros j Hj; rewrite <- Hpages by lia; apply Hbefore; exact Hj |].
  split; [rewrite <- Hpages by lia; exact Hlast |].
  split; [| split].
  - rewrite Hitems, fetched_concat. f_equal.
    apply map_ext_in. intros j Hj. apply in_seq in Hj. apply Hpages. lia.
  - rewrite Hitems, fetched_step. cbn [fst].
    rewrite length_app, (fetched_full_length _ _ n Hbefore), Hpages by lia. lia.
  - rewrite Hh. apply creationCalls_pageRequests.
Qed.

Lemma scan_requests_are_multiples_of_100_witness :
  exists n,
    n < 5
    /\ [EvGetList Applications 0 100; EvGetList Applications 100 100;
        EvGetList Applications 200 100]
       = [] ++ pageRequests (EvGetList Applications) (S n)
    /\ (forall j, j < n ->
          length (pageAnswer
                    (sampleService sampleApps TrainingStatus.UpToDate (fun _ => []))
                    Applications [] j) = 100)
    /\ length (pageAnswer
                 (sampleService sampleApps TrainingStatus.UpToDate (fun _ => []))
                 Applications [] n) <> 100
    /\ sampleApps
       = concat (map (pageAnswer
                        (sampleService sampleApps TrainingStatus.UpToDate (fun _ => []))
                        Applications [])
                     (seq 0 (S n)))
    /\ length sampleApps
       = 100 * n
         + length (pageAnswer
                     (sampleService sampleApps TrainingStatus.UpToDate (fun _ => []))
                     Applications [] n)
    /\ creationCalls [EvGetList Applications 0 100; EvGetList Applications 100 100;
                      EvGetList Applications 200 100] = creationCalls [].
Proof.
  exact (scan_requests_are_multiples_of_100
           (sampleService sampleApps TrainingStatus.UpToDate (fun _ => []))
           Applications 5 [] sampleApps
           [EvGetList Applications 0 100; EvGetList Applications 100 100;
            EvGetList Applications 200 100]
           eq_refl).
Defined.

(* ================================================================== *)
(** ** More on the find operations and the find-or-create sequences *)

Lemma findInAllPages_only_reads svc c fuel filter :
  OnlyReads (findInAllPages fuel (getList svc c) filter) c.
Proof.
  intros h v h' Hfind. unfold findInAllPages, bind in Hfind.
  destruct (getAllPages fuel (getList svc c) h) as [[items h2] |] eqn:Hscan;
    [| discriminate Hfind].
  unfold ret in Hfind. injection Hfind as _ <-.
  destruct (getList_scan_inv svc c fuel h items h2 Hscan) as (n & _ & Hh & _).
  exists (S n). split; [lia | exact Hh].
Qed.

(** X3. The six find operations only read: whatever the service answers, a
    find that returns has added page requests on its own collection to the
    history (offsets 0, 100, ...) and nothing else; it creates nothing, sends
    no training request and does not wait. *)
Theorem find_operations_only_read :
  forall svc fuel appId versionId name,
    OnlyReads (findApplication svc fuel name) Applications
    /\ OnlyReads (findVersionIntent svc fuel appId versionId name)
         (VersionIntents appId versionId)
    /\ OnlyReads (findVersionEntity svc fuel appId versionId name)
         (VersionEntities appId versionId)
    /\ OnlyReads (findVersionHierarchicalEntity svc fuel appId versionId name)
         (VersionHierarchicalEntities appId versionId)
    /\ OnlyReads (findVersionClosedListEntity svc fuel appId versionId name)
         (VersionClosedLists appId versionId)
    /\ OnlyReads (findVersionPrebuiltEntity svc fuel appId versionId name)
         (VersionPrebuiltEntities appId versionId).
Proof.
  intros svc fuel appId versionId name.
  repeat split; apply findInAllPages_only_reads.
Qed.

Lemma find_operations_only_read_witness :
  exists n,
    1 <= n
    /\ [EvPostTrain "app" "0.1"; EvGetList (VersionIntents "app" "0.1") 0 100]
       = [EvPostTrain "app" "0.1"]
         ++ pageRequests (EvGetList (VersionIntents "app" "0.1")) n.
Proof.
  exact (proj1 (proj2 (find_operations_only_read
                         (sampleService [item "Search" "id-7"] TrainingStatus.UpToDate
                            (fun _ => []))
                         1 "app" "0.1" "Search"))
           [EvPostTrain "app" "0.1"] (VStr "id-7")
           [EvPostTrain "app" "0.1"; EvGetList (VersionIntents "app" "0.1") 0 100]
           eq_refl).
Defined.

Lemma findInAllPages_absent fuel pagedFunction name h items h' :
  getAllPages fuel pagedFunction h = Some (items, h') ->
  Forall (fun y => ~ Named name y) items ->
  findInAllPages fuel pagedFunction (nameIs name) h = Some (VUndefined, h').
Proof.
  intros Hscan Hnone.
  pose proof (findInAllPages_spec fuel pagedFunction name h) as Hspec.
  rewrite Hscan in Hspec. destruct Hspec as [_ Habsent].
  exact (Habsent Hnone).
Qed.






(** The loop on a collection that is served as long as an invariant of the
    history holds. *)
Lemma getAllPages_loop_serves_while pagedFunction coll ev (Inv : History -> Prop) :
  (forall skip tk h,
      Inv h ->
      pagedFunction skip tk h = Some (firstn tk (skipn skip coll), h ++ [ev skip tk])
      /\ Inv (h ++ [ev skip tk])) ->
  forall fuel results rest h,
    Inv h ->
    coll = results ++ rest ->
    length rest / take < fuel ->
    getAllPages_loop fuel pagedFunction (length results) results h =
    Some (coll, h ++ map (fun k => ev (length results + k * take) take)
                         (seq 0 (length rest / take + 1))).
Proof.
  intros Hserves. pose proof take_pos as Hpos.
  induction fuel as [| fuel IH]; intros results rest h Hinv Hcoll Hfuel; [lia |].
  cbn [getAllPages_loop]. unfold bind.
  destruct (Hserves (length results) take h Hinv) as [Hpage Hinv'].
  rewrite Hpage, Hcoll, skipn_prefix.
  destruct (Nat.eqb_spec (length (firstn take rest)) take) as [Hfull | Hshort];
    rewrite length_firstn in *.
  - assert (Hle : take <= length rest) by lia.
    assert (Hdiv := div_step (length rest) take Hpos Hle).
    rewrite <- Hcoll.
    rewrite (IH (results ++ firstn take rest) (skipn take rest));
      [ | exact Hinv'
        | rewrite <- app_assoc, firstn_skipn; exact Hcoll
        | rewrite length_skipn; lia ].
    rewrite length_skipn, Hdiv.
    rewrite length_app, length_firstn, Nat.min_l by lia.
    rewrite <- app_assoc. do 3 f_equal.
    replace (S ((length rest - take) / take) + 1)
      with (S ((length rest - take) / take + 1)) by lia.
    cbn [seq]. rewrite <- (seq_shift _ 0). cbn [map app]. rewrite map_map.
    f_equal; [ f_equal; lia | ].
    apply map_ext. intros k. f_equal. lia.
  - assert (Hlt : length rest < take) by lia.
    rewrite firstn_all2 by lia.
    rewrite Nat.div_small by lia. cbn [seq map Nat.add].
    unfold ret. rewrite Nat.mul_0_l, Nat.add_0_r. reflexivity.
Qed.

Lemma creationCalls_app h1 h2 : creationCalls (h1 ++ h2) = creationCalls h1 + creationCalls h2.
Proof. unfold creationCalls. rewrite filter_app, length_app. reflexivity. Qed.

Lemma getAllPages_servesAfter svc c h0 coll fuel :
  ServesAfter svc c h0 coll ->
  length coll / take < fuel ->
  getAllPages fuel (getList svc c) h0
  = Some (coll, h0 ++ pageRequests (EvGetList c) (requestCount (length coll))).
Proof.
  intros Hserves Hfuel.
  pose proof (getAllPages_loop_serves_while (getList svc c) coll (EvGetList c)
                (fun h => exists reqs, h = h0 ++ reqs /\ creationCalls reqs = 0))
    as Hloop.
  unfold getAllPages, pageRequests. rewrite requestCount_eq.
  specialize (Hloop
    ltac:(intros skip tk h (reqs & -> & Hreqs); split;
          [ unfold getList, perform; rewrite (Hserves reqs skip tk Hreqs); reflexivity
          | exists (reqs ++ [EvGetList c skip tk]); split;
            [ symmetry; apply app_assoc
            | rewrite creationCalls_app, Hreqs; reflexivity ] ])
    fuel [] coll h0
    ltac:(exists []; split; [symmetry; apply app_nil_r | reflexivity])
    eq_refl Hfuel).
  cbn [length Nat.add] in Hloop. exact Hloop.
Qed.

Lemma length_snoc_div (coll : list Item.t) (x : Item.t) fuel :
  length (coll ++ [x]) / take < fuel -> length coll / take < fuel.
Proof.
  intros H. rewrite length_app in H. cbn [length] in H.
  pose proof take_pos.
  assert (length coll / take <= (length coll + 1) / take)
    by (apply Nat.Div0.div_le_mono; lia).
  lia.
Qed.

(** X6. Find-or-create is idempotent against a service that keeps what it
    creates.  Suppose the collection holds no resource of the requested
    name, the creation answers a truthy identifier, and from then on the
    collection lists the new resource, under that name and identifier, after
    the old ones.  Then a first run creates the resource (one creation
    request), and a second run, started where the first ended, returns the
    same identifier and creates nothing. *)
Theorem find_or_create_twice :
  forall svc c coll name p fuel h,
    let scan1 := pageRequests (EvGetList c) (requestCount (length coll)) in
    let id := createResponse svc (h ++ scan1) c p in
    let coll' := coll ++ [{| Item.name := VStr name; Item.id := id |}] in
    let h1 := h ++ scan1 ++ [EvPost c p] in
    let scan2 := pageRequests (EvGetList c) (requestCount (length coll')) in
    let run := findOrCreate (findInAllPages fuel (getList svc c) (nameIs name))
                            (postTo svc c p) in
    ServesAfter svc c h coll ->
    Forall (fun y => ~ Named name y) coll ->
    ServesAfter svc c h1 coll' ->
    truthy id = true ->
    length coll' / 100 < fuel ->
    run h = Some (id, h1)
    /\ run h1 = Some (id, h1 ++ scan2)
    /\ creationCalls h1 = creationCalls h + 1
    /\ creationCalls (h1 ++ scan2) = creationCalls h1.
Proof.
  intros svc c coll name p fuel h scan1 id coll' h1 scan2 run
         Hbefore Hnone Hafter Htruthy Hfuel.
  change 100 with take in Hfuel.
  split; [| split; [| split]].
  - unfold run.
    rewrite (findOrCreate_falsy _ _ h VUndefined (h ++ scan1)); [ | | reflexivity ].
    + unfold postTo, perform, h1. rewrite <- app_assoc. reflexivity.
    + apply (findInAllPages_absent _ _ _ _ coll); [| exact Hnone].
      apply getAllPages_servesAfter; [exact Hbefore |].
      exact (length_snoc_div _ _ _ Hfuel).
  - unfold run. apply findOrCreate_truthy; [| exact Htruthy].
    apply (findInAllPages_first _ _ _ _ coll' _
             {| Item.name := VStr name; Item.id := id |}).
    + apply getAllPages_servesAfter; assumption.
    + exists coll, []. split; [reflexivity | split; [exact Hnone | reflexivity]].
  - unfold h1, scan1. rewrite app_assoc, creationCalls_app, creationCalls_pageRequests.
    reflexivity.
  - apply creationCalls_pageRequests.
Qed.

Lemma createdApps_reads (h reqs : History) :
  creationCalls reqs = 0 -> createdApps (h ++ reqs) = createdApps h.
Proof.
  intros Hreqs.
  assert (Hnil : createdApps reqs = []).
  { induction reqs as [| e reqs IH]; [reflexivity |].
    destruct e; try (apply IH; exact Hreqs). discriminate Hreqs. }
  induction h as [| e h IH]; [exact Hnil |].
  cbn [app createdApps]. rewrite IH. reflexivity.
Qed.

Lemma find_or_create_twice_witness :
  let h1 := [EvGetList Applications 0 100; EvGetList Applications 100 100;
             EvGetList Applications 200 100;
             EvPost Applications
               (ApplicationPayload "Test" "A test LUIS app created programmatically"
                  "en-us" "0.1" None None)] in
  findOrCreateApplication (storeService otherApps) 3
    "Test" "A test LUIS app created programmatically" "en-us" "0.1" []
  = Some (VStr "id-new", h1)
  /\ findOrCreateApplication (storeService otherApps) 3
       "Test" "A test LUIS app created programmatically" "en-us" "0.1" h1
     = Some (VStr "id-new",
             h1 ++ [EvGetList Applications 0 100; EvGetList Applications 100 100;
                    EvGetList Applications 200 100]).
Proof.
  intros h1.
  destruct (find_or_create_twice (storeService otherApps) Applications otherApps "Test"
              (ApplicationPayload "Test" "A test LUIS app created programmatically"
                 "en-us" "0.1" None None) 3 [])
    as (Hfirst & Hsecond & _).
  - intros reqs skip tk Hreqs. cbn [storeService listResponse].
    rewrite createdApps_reads by exact Hreqs. cbn [createdApps]. rewrite app_nil_r.
    reflexivity.
  - apply Forall_forall. intros y Hy. apply repeat_spec in Hy. subst y. discriminate.
  - intros reqs skip tk Hreqs. cbn [storeService listResponse].
    rewrite createdApps_reads by exact Hreqs. reflexivity.
  - reflexivity.
  - vm_compute. lia.
  - split; [exact Hfirst | exact Hsecond].
Defined.

(* ================================================================== *)
(** ** More on the training-completion poller *)

Lemma poller_not_queued svc fuel appId versionId h :
  Details.statusId (trainResponse svc h appId versionId)
    <> VNum (TrainingStatus.code TrainingStatus.Queued) ->
  exists r,
    trainApplicationVersionAndWaitForCompletion svc fuel appId versionId h
    = Some (r, h ++ [EvPostTrain appId versionId])
    /\ TrainingResult.status r = None.
Proof.
  intros Hinit.
  unfold trainApplicationVersionAndWaitForCompletion, bind,
    trainApplicationVersion, perform.
  rewrite (isStatus_false _ TrainingStatus.Queued Hinit).
  destruct (isStatus _ TrainingStatus.UpToDate); eexists; split; reflexivity.
Qed.

Lemma trainingStarts_app h1 h2 :
  trainingStarts (h1 ++ h2) = trainingStarts h1 + trainingStarts h2.
Proof. unfold trainingStarts. rewrite filter_app, length_app. reflexivity. Qed.

Lemma pollRounds_counts appId versionId k :
  statusPolls (pollRounds appId versionId k) = k
  /\ trainingStarts (pollRounds appId versionId k) = 0
  /\ creationCalls (pollRounds appId versionId k) = 0.
Proof.
  induction k as [| k (IH1 & IH2 & IH3)]; [repeat split |].
  cbn [pollRounds].
  rewrite statusPolls_app, trainingStarts_app, creationCalls_app, IH1, IH2, IH3.
  cbn. repeat split; lia.
Qed.

Lemma Value_eq_dec (v w : Value) : {v = w} + {v <> w}.
Proof.
  decide equality;
    [ apply Bool.bool_dec | apply Z.eq_dec | apply String.string_dec ].
Qed.

(** X7. Whatever the service answers, a run of the poller that returns has
    submitted the training exactly once and then done [k] turns of the
    polling loop, each a 500 ms delay followed by one status poll, and
    nothing else: there is no second submission and no creation.  There is
    no turn at all when the immediate status is not [Queued], at least one
    when it is, and never more than the fuel allows. *)
Theorem poller_effects :
  forall svc fuel appId versionId h r h',
    trainApplicationVersionAndWaitForCompletion svc fuel appId versionId h = Some (r, h') ->
    exists k,
      k <= fuel
      /\ h' = h ++ EvPostTrain appId versionId :: pollRounds appId versionId k
      /\ (k = 0 <-> Details.statusId (trainResponse svc h appId versionId)
                    <> VNum (TrainingStatus.code TrainingStatus.Queued))
      /\ trainingStarts h' = trainingStarts h + 1
      /\ statusPolls h' = statusPolls h + k
      /\ creationCalls h' = creationCalls h.
Proof.
  intros svc fuel appId versionId h r h' Hrun.
  assert (Hcounts : forall k,
    trainingStarts (h ++ EvPostTrain appId versionId :: pollRounds appId versionId k)
      = trainingStarts h + 1
    /\ statusPolls (h ++ EvPostTrain appId versionId :: pollRounds appId versionId k)
       = statusPolls h + k
    /\ creationCalls (h ++ EvPostTrain appId versionId :: pollRounds appId versionId k)
       = creationCalls h).
  { intros k. destruct (pollRounds_counts appId versionId k) as (H1 & H2 & H3).
    change (EvPostTrain appId versionId :: pollRounds appId versionId k)
      with ([EvPostTrain appId versionId] ++ pollRounds appId versionId k).
    rewrite !trainingStarts_app, !statusPolls_app, !creationCalls_app, H1, H2, H3.
    cbn. repeat split; lia. }
  destruct (Value_eq_dec (Details.statusId (trainResponse svc h appId versionId))
              (VNum (TrainingStatus.code TrainingStatus.Queued))) as [Hq | Hnq].
  - rewrite (poller_queued _ _ _ _ _ Hq) in Hrun.
    destruct (waitForCompletion_loop svc fuel appId versionId
                (h ++ [EvPostTrain appId versionId])) as [[L h2] |] eqn:Hloop;
      [| discriminate Hrun].
    injection Hrun as _ <-.
    destruct (waitForCompletion_loop_inv0 _ _ _ _ _ _ _ Hloop)
      as (n & Hn & _ & _ & _ & Hh).
    subst h2. rewrite <- app_assoc. cbn [app].
    exists (S n). split; [lia |]. split; [reflexivity |].
    split; [| apply Hcounts].
    split; [intros H; discriminate H | intros H; contradiction].
  - destruct (poller_not_queued svc fuel appId versionId h Hnq) as (r0 & Hr0 & _).
    rewrite Hr0 in Hrun. injection Hrun as _ <-.
    exists 0. split; [lia |]. split; [reflexivity |].
    split; [| exact (Hcounts 0)].
    split; [intros _; exact Hnq | reflexivity].
Qed.

Lemma poller_effects_witness :
  exists k,
    k <= 7
    /\ [EvPostTrain "app" "0.1"; EvDelay 500; EvGetTrain "app" "0.1";
        EvDelay 500; EvGetTrain "app" "0.1"]
       = [] ++ EvPostTrain "app" "0.1" :: pollRounds "app" "0.1" k
    /\ (k = 0 <-> VNum (TrainingStatus.code TrainingStatus.Queued)
                  <> VNum (TrainingStatus.code TrainingStatus.Queued))
    /\ trainingStarts [EvPostTrain "app" "0.1"; EvDelay 500; EvGetTrain "app" "0.1";
                       EvDelay 500; EvGetTrain "app" "0.1"] = trainingStarts [] + 1
    /\ statusPolls [EvPostTrain "app" "0.1"; EvDelay 500; EvGetTrain "app" "0.1";
                    EvDelay 500; EvGetTrain "app" "0.1"] = statusPolls [] + k
    /\ creationCalls [EvPostTrain "app" "0.1"; EvDelay 500; EvGetTrain "app" "0.1";
                      EvDelay 500; EvGetTrain "app" "0.1"] = creationCalls [].
Proof.
  exact (poller_effects
           (sampleService [] TrainingStatus.Queued
              (busyThen [model "intent" TrainingStatus.Success]))
           7 "app" "0.1" []
           (trainingResult true TrainingStatus.Success None)
           [EvPostTrain "app" "0.1"; EvDelay 500; EvGetTrain "app" "0.1";
            EvDelay 500; EvGetTrain "app" "0.1"]
           eq_refl).
Defined.

(** X8. When a result of the poller carries the raw status list, the
    immediate status was [Queued], the list is the answer to the last status
    poll made, it has an entry that is [Fail] and none that is [InProgress],
    and the result is the failure result. *)
Theorem attached_status_is_last_poll :
  forall svc fuel appId versionId h r h' L,
    trainApplicationVersionAndWaitForCompletion svc fuel appId versionId h = Some (r, h') ->
    TrainingResult.status r = Some L ->
    Details.statusId (trainResponse svc h appId versionId)
      = VNum (TrainingStatus.code TrainingStatus.Queued)
    /\ (exists n,
          n < fuel
          /\ L = pollAnswer svc (h ++ [EvPostTrain appId versionId]) appId versionId n
          /\ h' = (h ++ [EvPostTrain appId versionId])
                  ++ pollRounds appId versionId (S n))
    /\ Exists (HasStatus TrainingStatus.Fail) L
    /\ ~ Exists (HasStatus TrainingStatus.InProgress) L
    /\ r = trainingResult false TrainingStatus.Fail (Some L).
Proof.
  intros svc fuel appId versionId h r h' L Hrun Hstatus.
  destruct (Value_eq_dec (Details.statusId (trainResponse svc h appId versionId))
              (VNum (TrainingStatus.code TrainingStatus.Queued))) as [Hq | Hnq].
  - split; [exact Hq |].
    rewrite (poller_queued _ _ _ _ _ Hq) in Hrun.
    destruct (waitForCompletion_loop svc fuel appId versionId
                (h ++ [EvPostTrain appId versionId])) as [[L2 h2] |] eqn:Hloop;
      [| discriminate Hrun].
    destruct (waitForCompletion_loop_inv0 _ _ _ _ _ _ _ Hloop)
      as (n & Hn & _ & Hdone & HL & Hh).
    destruct (existsb (modelIs TrainingStatus.Fail) L2) eqn:Hfail;
      [ | destruct (forallb (modelIs TrainingStatus.UpToDate) L2) ];
      injection Hrun as <- <-; cbn in Hstatus; try discriminate Hstatus.
    injection Hstatus as <-.
    split; [exists n; repeat split; assumption |].
    split; [apply existsb_modelIs; exact Hfail |].
    split; [rewrite HL; exact Hdone | reflexivity].
  - destruct (poller_not_queued svc fuel appId versionId h Hnq) as (r0 & Hr0 & Hnone).
    rewrite Hr0 in Hrun. injection Hrun as <- _.
    rewrite Hnone in Hstatus. discriminate Hstatus.
Qed.

Lemma attached_status_is_last_poll_witness :
  Exists (HasStatus TrainingStatus.Fail)
    [model "intent" TrainingStatus.Fail; model "entity" TrainingStatus.UpToDate]
  /\ ~ Exists (HasStatus TrainingStatus.InProgress)
       [model "intent" TrainingStatus.Fail; model "entity" TrainingStatus.UpToDate].
Proof.
  pose proof (attached_status_is_last_poll
                (sampleService [] TrainingStatus.Queued
                   (busyThen [model "intent" TrainingStatus.Fail;
                              model "entity" TrainingStatus.UpToDate]))
                2 "app" "0.1" []
                (trainingResult false TrainingStatus.Fail
                   (Some [model "intent" TrainingStatus.Fail;
                          model "entity" TrainingStatus.UpToDate]))
                [EvPostTrain "app" "0.1"; EvDelay 500; EvGetTrain "app" "0.1";
                 EvDelay 500; EvGetTrain "app" "0.1"]
                [model "intent" TrainingStatus.Fail;
                 model "entity" TrainingStatus.UpToDate]
                eq_refl eq_refl) as (_ & _ & Hfail & Hdone & _).
  split; assumption.
Defined.

Lemma fail_excludes_all_up_to_date (L : list ModelTrainingInfo) :
  Exists (HasStatus TrainingStatus.Fail) L ->
  ~ Forall (HasStatus TrainingStatus.UpToDate) L.
Proof.
  intros Hex Hall. apply Exists_exists in Hex. destruct Hex as (s & Hin & Hs).
  rewrite Forall_forall in Hall. specialize (Hall s Hin).
  unfold HasStatus in *. rewrite Hs in Hall. discriminate Hall.
Qed.

(** X9. With an immediate status [Queued] and enough fuel, the outcome is
    decided by the first status list without an [InProgress] entry alone:
    the poller reports success exactly when that list has no [Fail] entry,
    status [UpToDate] exactly when all its entries are [UpToDate], and status
    [Success] exactly when it has no [Fail] entry but some entry that is not
    [UpToDate] (a [Queued] entry, or a status code outside the enumeration,
    counts as such). *)
Theorem outcome_decided_by_final_list :
  forall svc appId versionId h n fuel,
    Details.statusId (trainResponse svc h appId versionId)
      = VNum (TrainingStatus.code TrainingStatus.Queued) ->
    let h1 := h ++ [EvPostTrain appId versionId] in
    let answer := pollAnswer svc h1 appId versionId in
    (forall k, k < n -> Exists (HasStatus TrainingStatus.InProgress) (answer k)) ->
    ~ Exists (HasStatus TrainingStatus.InProgress) (answer n) ->
    n < fuel ->
    exists r,
      trainApplicationVersionAndWaitForCompletion svc fuel appId versionId h
      = Some (r, h1 ++ pollRounds appId versionId (S n))
      /\ (TrainingResult.success r = true
          <-> ~ Exists (HasStatus TrainingStatus.Fail) (answer n))
      /\ (TrainingResult.statusId r = TrainingStatus.UpToDate
          <-> Forall (HasStatus TrainingStatus.UpToDate) (answer n))
      /\ (TrainingResult.statusId r = TrainingStatus.Success
          <-> ~ Exists (HasStatus TrainingStatus.Fail) (answer n)
              /\ ~ Forall (HasStatus TrainingStatus.UpToDate) (answer n)).
Proof.
  intros svc appId versionId h n fuel Hinit h1 answer Hbusy Hdone Hfuel.
  rewrite (poller_queued _ _ _ _ _ Hinit). fold h1.
  pose proof (waitForCompletion_loop_done svc appId versionId h1 n fuel 0) as Hloop.
  change (pollRounds appId versionId 0) with (@nil Event) in Hloop.
  rewrite app_nil_r in Hloop. cbn [Nat.add] in Hloop.
  rewrite (Hloop Hbusy Hdone Hfuel). fold answer.
  eexists. split; [reflexivity |].
  destruct (existsb (modelIs TrainingStatus.Fail) (answer n)) eqn:Hfail.
  - apply existsb_modelIs in Hfail.
    pose proof (fail_excludes_all_up_to_date _ Hfail) as Hnotall.
    cbn. repeat split; intros; try discriminate; try contradiction; tauto.
  - assert (Hnofail : ~ Exists (HasStatus TrainingStatus.Fail) (answer n)).
    { intros Hex. apply existsb_modelIs in Hex. rewrite Hex in Hfail.
      discriminate Hfail. }
    destruct (forallb (modelIs TrainingStatus.UpToDate) (answer n)) eqn:Hall.
    + apply forallb_modelIs in Hall.
      cbn. repeat split; intros; try discriminate; try assumption; tauto.
    + assert (Hnotall : ~ Forall (HasStatus TrainingStatus.UpToDate) (answer n)).
      { intros Hf. apply forallb_modelIs in Hf. rewrite Hf in Hall.
        discriminate Hall. }
      cbn. repeat split; intros; try discriminate; try assumption; tauto.
Qed.

Lemma outcome_decided_by_final_list_witness :
  exists r,
    trainApplicationVersionAndWaitForCompletion
      (sampleService [] TrainingStatus.Queued
         (fun _ => [model "intent" TrainingStatus.Queued;
                    model "entity" TrainingStatus.UpToDate]))
      1 "app" "0.1" []
    = Some (r, [EvPostTrain "app" "0.1"; EvDelay 500; EvGetTrain "app" "0.1"])
    /\ TrainingResult.success r = true
    /\ TrainingResult.statusId r = TrainingStatus.Success.
Proof.
  assert (Hdone : ~ Exists (HasStatus TrainingStatus.InProgress)
                      [model "intent" TrainingStatus.Queued;
                       model "entity" TrainingStatus.UpToDate]).
  { intros Hex. apply Exists_exists in Hex. destruct Hex as (s & Hin & Hs).
    destruct Hin as [<- | [<- | []]]; discriminate Hs. }
  assert (Hnofail : ~ Exists (HasStatus TrainingStatus.Fail)
                        [model "intent" TrainingStatus.Queued;
                         model "entity" TrainingStatus.UpToDate]).
  { intros Hex. apply Exists_exists in Hex. destruct Hex as (s & Hin & Hs).
    destruct Hin as [<- | [<- | []]]; discriminate Hs. }
  assert (Hnotall : ~ Forall (HasStatus TrainingStatus.UpToDate)
                        [model "intent" TrainingStatus.Queued;
                         model "entity" TrainingStatus.UpToDate]).
  { intros Hall. apply Forall_inv in Hall. discriminate Hall. }
  destruct (outcome_decided_by_final_list
              (sampleService [] TrainingStatus.Queued
                 (fun _ => [model "intent" TrainingStatus.Queued;
                            model "entity" TrainingStatus.UpToDate]))
              "app" "0.1" [] 0 1 eq_refl
              (fun k Hk => False_ind _ (Nat.nlt_0_r k Hk)) Hdone (le_n 1))
    as (r & Hrun & Hsuccess & _ & Hstatus).
  exists r. split; [exact Hrun |].
  split; [apply Hsuccess; exact Hnofail | apply Hstatus; split; assumption].
Defined.

(** X10. The poller never reports [InProgress] or [Queued] as final status,
    and a result that is not a success always has status [Fail]: so the
    status of any result is [Success], [Fail] or [UpToDate]. *)
Theorem result_status_is_final :
  forall svc fuel appId versionId h r h',
    trainApplicationVersionAndWaitForCompletion svc fuel appId versionId h = Some (r, h') ->
    TrainingResult.statusId r <> TrainingStatus.InProgress
    /\ TrainingResult.statusId r <> TrainingStatus.Queued
    /\ (TrainingResult.success r = false ->
        TrainingResult.statusId r = TrainingStatus.Fail).
Proof.
  intros svc fuel appId versionId h r h'.
  unfold trainApplicationVersionAndWaitForCompletion, bind,
    trainApplicationVersion, perform, ret.
  destruct (isStatus _ TrainingStatus.UpToDate);
    [ | destruct (isStatus _ TrainingStatus.Queued);
        [ destruct (waitForCompletion_loop _ _ _ _ _) as [[L h2] |];
          [ destruct (existsb _ L); [ | destruct (forallb _ L) ] | ] | ] ];
    intros Hrun; try discriminate Hrun;
    injection Hrun as <- _; cbn;
    (split; [discriminate | split; [discriminate |]]);
    intros Hs; (reflexivity || discriminate Hs).
Qed.

Lemma result_status_is_final_witness :
  let r := trainingResult false TrainingStatus.Fail None in
  TrainingResult.statusId r <> TrainingStatus.InProgress
  /\ TrainingResult.statusId r <> TrainingStatus.Queued
  /\ (TrainingResult.success r = false ->
      TrainingResult.statusId r = TrainingStatus.Fail).
Proof.
  exact (result_status_is_final
           (sampleService [] TrainingStatus.InProgress (fun _ => []))
           0 "app" "0.1" []
           (trainingResult false TrainingStatus.Fail None)
           [EvPostTrain "app" "0.1"] eq_refl).
Defined.

(** X11. There is no timeout: with an immediate status [Queued], if every
    status poll answers a list with an [InProgress] entry, the poller returns
    for no bound on the number of turns. *)
Theorem poller_waits_forever_while_in_progress :
  forall svc appId versionId h,
    Details.statusId (trainResponse svc h appId versionId)
      = VNum (TrainingStatus.code TrainingStatus.Queued) ->
    (forall k, Exists (HasStatus TrainingStatus.InProgress)
                 (pollAnswer svc (h ++ [EvPostTrain appId versionId]) appId versionId k)) ->
    forall fuel,
      trainApplicationVersionAndWaitForCompletion svc fuel appId versionId h = None.
Proof.
  intros svc appId versionId h Hinit Hbusy fuel.
  rewrite (poller_queued _ _ _ _ _ Hinit).
  pose proof (waitForCompletion_loop_busy svc appId versionId
                (h ++ [EvPostTrain appId versionId]) fuel 0) as Hloop.
  change (pollRounds appId versionId 0) with (@nil Event) in Hloop.
  rewrite app_nil_r in Hloop.
  rewrite Hloop; [reflexivity |].
  intros j _. apply Hbusy.
Qed.

Lemma poller_waits_forever_while_in_progress_witness :
  trainApplicationVersionAndWaitForCompletion
    (sampleService [] TrainingStatus.Queued
       (fun _ => [model "intent" TrainingStatus.InProgress]))
    25 "app" "0.1" [] = None.
Proof.
  apply (poller_waits_forever_while_in_progress
           (sampleService [] TrainingStatus.Queued
              (fun _ => [model "intent" TrainingStatus.InProgress]))
           "app" "0.1" [] eq_refl).
  intros k. constructor. reflexivity.
Defined.
